(** * MLX90614 infrared thermometer driver for Klipper

    A shallow embedding of [mlx90614.py] (Python 3 semantics) and the
    properties of its sampling loop.

    - Python floats are IEEE 754 binary64 values, modelled with the
      executable specification [spec_float] (precision 53, exponent
      bound 1024, round to nearest even).
    - Python objects that reach the driver are values of [pyval]; the
      operators the driver applies to them ([*], [-], [[0]], [%],
      [bytearray], [round]) are total functions into [result], a raised
      exception being the [Raise] case.
    - Methods are state transformers over [state]: the instance
      attributes, the module global [MLX90614_REGS], the wake time of
      the reactor timer, and the chronological list of calls made to the
      host (bus transactions, log lines, shutdown requests, callbacks).
    - The host (Klipper's bus, reactor clock and MCU clock estimate) is a
      record of functions of the call history: nothing is assumed about
      what it answers. *)

From Stdlib Require Import ZArith QArith Qabs Lia Lqa String Ascii List Bool.
From Stdlib.Strings Require Import Byte.
From Stdlib Require Import SpecFloat HexString DecimalString.
From stdpp Require Import base option gmap strings list.

Open Scope Z_scope.

(** ** Binary64 floating point *)

Definition float : Type := spec_float.

Definition prec : Z := 53.
Definition emax : Z := 1024.

(** Conversion of an integer, correctly rounded. *)
Definition float_of_Z (z : Z) : float := binary_normalize prec emax z 0 false.

Definition fmul : float -> float -> float := SFmul prec emax.
Definition fadd : float -> float -> float := SFadd prec emax.
Definition fsub : float -> float -> float := SFsub prec emax.
Definition fdiv : float -> float -> float := SFdiv prec emax.
Definition flt : float -> float -> bool := SFltb.
Definition fle : float -> float -> bool := SFleb.
Definition feq : float -> float -> bool := SFeqb.

Definition is_nan (f : float) : bool :=
  match f with S754_nan => true | _ => false end.

Definition is_finite (f : float) : bool :=
  match f with S754_zero _ | S754_finite _ _ _ => true | _ => false end.

(** A decimal literal [n / 10^k] of the source text, as the parser reads
    it: the binary64 value nearest to the decimal. *)
Definition float_lit (n : Z) (k : Z) : float :=
  match n with
  | Z0 => S754_zero false
  | Zpos p => fdiv (S754_finite false p 0) (S754_finite false (Z.to_pos (10 ^ k)) 0)
  | Zneg p => fdiv (S754_finite true p 0) (S754_finite false (Z.to_pos (10 ^ k)) 0)
  end.

Definition f0_0 : float := S754_zero false.

(** The literals of the driver. *)
Definition lit_0_02 : float := Eval vm_compute in float_lit 2 2.
Definition lit_273_15 : float := Eval vm_compute in float_lit 27315 2.
Definition lit_0_8 : float := Eval vm_compute in float_lit 8 1.
Definition lit_0_5 : float := Eval vm_compute in float_lit 5 1.

(** The exact rational value of a finite float (0 for the others). *)
Definition Q_of_float (f : float) : Q :=
  match f with
  | S754_finite s m e =>
      let n := if s then Zneg m else Zpos m in
      match e with
      | Zneg p => n # (2 ^ p)
      | _ => (n * 2 ^ e) # 1
      end
  | _ => 0%Q
  end.

(** *** Decimal output *)

(** [a / d] rounded to the nearest integer, ties to even ([0 <= a], [0 < d]). *)
Definition round_half_even_div (a d : Z) : Z :=
  let q := a / d in
  let r := a mod d in
  match 2 * r ?= d with
  | Lt => q
  | Gt => q + 1
  | Eq => if Z.even q then q else q + 1
  end.

(** [m * 2^e * k] rounded to the nearest integer, ties to even. *)
Definition scaled_round (k : Z) (m : positive) (e : Z) : Z :=
  match e with
  | Zneg p => round_half_even_div (Zpos m * k) (2 ^ Zpos p)
  | _ => Zpos m * k * 2 ^ e
  end.

Definition decimal (n : Z) : string := NilZero.string_of_uint (N.to_uint (Z.to_N n)).

Definition sign_str (s : bool) : string := if s then "-" else "".

(** ["%0.1f" % f] and ["%.01f" % f]: one digit after the point, the
    decimal expansion of the exact binary value rounded half to even. *)
Definition format_1f (f : float) : string :=
  match f with
  | S754_nan => "nan"
  | S754_infinity s => sign_str s +:+ "inf"
  | S754_zero s => sign_str s +:+ "0.0"
  | S754_finite s m e =>
      let n := scaled_round 10 m e in
      sign_str s +:+ decimal (n / 10) +:+ "." +:+ decimal (n mod 10)
  end.

(** [round(f, 2)]: the decimal with two digits after the point nearest to
    the exact binary value (ties to even), read back as a float. Infinities,
    NaN and zeros round to themselves; a negative value that rounds to zero
    gives [-0.0]. *)
Definition py_round2 (f : float) : float :=
  match f with
  | S754_finite s m e =>
      match scaled_round 100 m e with
      | Zpos n => fdiv (S754_finite s n 0) (S754_finite false 100 0)
      | _ => S754_zero s
      end
  | _ => f
  end.

(** ** Python values and exceptions *)

Inductive exn :=
  | KeyError (key : string)
  | IndexError
  | TypeError
  | ValueError
  | OverflowError
  | AttributeError (attr : string)
  | ConfigError (msg : string)
  | HostException (msg : string)      (* raised by a host service; derives from Exception *)
  | HostBaseException (msg : string). (* KeyboardInterrupt, SystemExit, GreenletExit *)

(** [isinstance(e, Exception)]: what [except Exception] catches. *)
Definition isinstance_Exception (e : exn) : bool :=
  match e with HostBaseException _ => false | _ => true end.

Inductive result (A : Type) :=
  | Ok (a : A)
  | Raise (e : exn).
Arguments Ok {A} a.
Arguments Raise {A} e.

Inductive pyval :=
  | PyNone
  | PyBool (b : bool)
  | PyInt (n : Z)
  | PyFloat (f : float)
  | PyStr (s : string)
  | PyBytes (b : list byte)
  | PyByteArray (b : list byte)
  | PyList (l : list pyval).

Definition int_of_byte (b : byte) : Z := Z.of_N (Byte.to_N b).

(** [float(n)] as used by the mixed [int * float]: an integer beyond the
    binary64 range raises OverflowError. *)
Definition float_of_int (n : Z) : result float :=
  let f := float_of_Z n in
  if is_finite f then Ok f else Raise OverflowError.

(** [x * f] for a float [f]: numbers are multiplied as floats, a sequence
    cannot be repeated a non-integer number of times. *)
Definition py_mul_float (x : pyval) (f : float) : result float :=
  match x with
  | PyInt n =>
      match float_of_int n with Ok a => Ok (fmul a f) | Raise e => Raise e end
  | PyBool b => Ok (fmul (float_of_Z (if b then 1 else 0)) f)
  | PyFloat a => Ok (fmul a f)
  | PyNone | PyStr _ | PyBytes _ | PyByteArray _ | PyList _ => Raise TypeError
  end.

(** One item of an iterable given to [bytearray(...)]. *)
Definition byte_of_item (v : pyval) : result byte :=
  match v with
  | PyInt n =>
      if (0 <=? n) && (n <? 256)
      then match Byte.of_N (Z.to_N n) with Some b => Ok b | None => Raise ValueError end
      else Raise ValueError
  | PyBool b => Ok (if b then x01 else x00)
  | _ => Raise TypeError
  end.

Fixpoint bytes_of_items (l : list pyval) : result (list byte) :=
  match l with
  | [] => Ok []
  | v :: l' =>
      match byte_of_item v with
      | Raise e => Raise e
      | Ok b =>
          match bytes_of_items l' with
          | Raise e => Raise e
          | Ok bs => Ok (b :: bs)
          end
      end
  end.

(** [bytearray(v)]: a copy of a bytes-like object, [n] zero bytes for an
    integer [n] that fits an index, the items of a list of small integers.
    (Running out of memory is not modelled.) *)
Definition bytearray (v : pyval) : result pyval :=
  match v with
  | PyBytes b | PyByteArray b => Ok (PyByteArray b)
  | PyInt n =>
      if n <? 0 then Raise ValueError
      else if 2 ^ 63 <=? n then Raise OverflowError
      else Ok (PyByteArray (repeat x00 (Z.to_nat n)))
  | PyBool b => Ok (PyByteArray (repeat x00 (if b then 1%nat else 0%nat)))
  | PyList l =>
      match bytes_of_items l with
      | Ok bs => Ok (PyByteArray bs)
      | Raise e => Raise e
      end
  | PyNone | PyFloat _ | PyStr _ => Raise TypeError
  end.

(** [v[0]]. *)
Definition py_getitem0 (v : pyval) : result pyval :=
  match v with
  | PyBytes (b :: _) | PyByteArray (b :: _) => Ok (PyInt (int_of_byte b))
  | PyList (x :: _) => Ok x
  | PyStr (String c _) => Ok (PyStr (String c EmptyString))
  | PyBytes [] | PyByteArray [] | PyList [] | PyStr EmptyString => Raise IndexError
  | PyNone | PyBool _ | PyInt _ | PyFloat _ => Raise TypeError
  end.

(** ["%#x" % v]. *)
Definition format_hex (v : pyval) : result string :=
  match v with
  | PyInt n => Ok (HexString.of_Z n)
  | PyBool b => Ok (HexString.of_Z (if b then 1 else 0))
  | _ => Raise TypeError
  end.

(** [s.split()] cuts a text at white space. A [string] holds the UTF-8
    encoding of the text, and the white-space characters are those of
    Python's [str]: U+0009 to U+000D, U+001C to U+0020, U+0085, U+00A0,
    U+1680, U+2000 to U+200A, U+2028, U+2029, U+202F, U+205F and U+3000. *)

(** The white space of one byte. *)
Definition is_ascii_space (c : ascii) : bool :=
  let n := nat_of_ascii c in
  ((9 <=? n)%nat && (n <=? 13)%nat) || ((28 <=? n)%nat && (n <=? 32)%nat).

(** The number of bytes of the white-space character that [s] starts
    with, 0 when it starts with none. *)
Definition space_width (s : string) : nat :=
  match s with
  | EmptyString => 0%nat
  | String c1 s1 =>
      if is_ascii_space c1 then 1%nat
      else
        match s1 with
        | EmptyString => 0%nat
        | String c2 s2 =>
            let a := nat_of_ascii c1 in
            let b := nat_of_ascii c2 in
            if (a =? 194)%nat && ((b =? 133)%nat || (b =? 160)%nat) then 2%nat
            else
              match s2 with
              | EmptyString => 0%nat
              | String c3 _ =>
                  let d := nat_of_ascii c3 in
                  if (a =? 225)%nat && (b =? 154)%nat && (d =? 128)%nat then 3%nat
                  else if (a =? 226)%nat && (b =? 128)%nat
                          && (((128 <=? d)%nat && (d <=? 138)%nat)
                              || (d =? 168)%nat || (d =? 169)%nat || (d =? 175)%nat)
                  then 3%nat
                  else if (a =? 226)%nat && (b =? 129)%nat && (d =? 159)%nat then 3%nat
                  else if (a =? 227)%nat && (b =? 128)%nat && (d =? 128)%nat then 3%nat
                  else 0%nat
              end
        end
  end.

(** [s.split()], with the word being read kept in reverse in [cur];
    [skip] counts the bytes still to drop of a white-space character of
    several bytes. *)
Fixpoint py_split_from (skip : nat) (cur : string) (s : string) : list string :=
  match s with
  | EmptyString => match cur with EmptyString => [] | _ => [String.rev cur] end
  | String c s' =>
      match skip with
      | S k => py_split_from k cur s'
      | O =>
          match space_width s with
          | O => py_split_from O (String c cur) s'
          | S k =>
              match cur with
              | EmptyString => py_split_from k EmptyString s'
              | _ => String.rev cur :: py_split_from k EmptyString s'
              end
          end
      end
  end.

Definition py_split (s : string) : list string := py_split_from O EmptyString s.

(** [l[-1]]. *)
Definition py_last (l : list string) : result string :=
  match last l with
  | Some x => Ok x
  | None => Raise IndexError
  end.

(** Substring test, [needle in hay]. *)
Fixpoint is_infix (needle hay : string) : bool :=
  String.prefix needle hay ||
  match hay with
  | EmptyString => false
  | String _ hay' => is_infix needle hay'
  end.

(** ** The host, the driver state and the method monad *)

(** A reactor wake time: the reactor's constants [NOW] and [NEVER], or a
    reading of its monotonic clock. *)
Inductive waketime :=
  | NOW
  | NEVER
  | At (t : float).

(** Calls from the driver into the host, in the order they are made. *)
Inductive event :=
  | MCU_I2C_from_config (addr speed : Z)
  | RegisterTimer
  | AddObject (name : string)
  | RegisterEventHandler (ev : string)
  | AddSensorFactory (kind : string)
  | UpdateTimer (t : waketime)
  | I2CRead (regs : list Z) (read_len : Z)
  | I2CWrite (data : list pyval)
  | LogInfo (msg : string)
  | LogException (msg : string) (e : exn)
  | InvokeShutdown (msg : string)
  | ReportCallback (cb : string) (print_time temperature : float).

(** What the host answers, as functions of everything the driver has done
    so far. [i2c_read] gives the [params] dictionary of a transaction or
    raises; [monotonic] is the reactor clock; [estimated_print_time] is
    the MCU clock estimate. *)
Record host := {
  i2c_read : list event -> list Z -> Z -> result (gmap string pyval);
  i2c_write : list event -> list pyval -> result unit;
  monotonic : list event -> float;
  estimated_print_time : list event -> float -> float
}.

(** The attributes of an instance. [_callback] is unset until
    [setup_callback] runs. *)
Record MLX90614 := {
  name : string;
  report_time : float;
  temp : float;
  min_temp : float;
  max_temp : float;
  _callback : option string
}.

Record state := {
  self : MLX90614;
  sample_timer : waketime;         (* wake time of the registered reactor timer *)
  REGS : gmap string Z;            (* the module global MLX90614_REGS *)
  trace : list event
}.

Definition M (A : Type) : Type := state -> result A * state.

#[export] Instance M_ret : MRet M := fun A a s => (Ok a, s).

#[export] Instance M_bind : MBind M := fun A B f m s =>
  match m s with
  | (Ok a, s') => f a s'
  | (Raise e, s') => (Raise e, s')
  end.

Definition raise {A} (e : exn) : M A := fun s => (Raise e, s).

Definition lift {A} (r : result A) : M A := fun s => (r, s).

Definition get_self : M MLX90614 := fun s => (Ok (self s), s).

Definition put_self (o : MLX90614) : M unit := fun s =>
  (Ok tt, {| self := o; sample_timer := sample_timer s; REGS := REGS s; trace := trace s |}).

Definition emit (e : event) : M unit := fun s =>
  (Ok tt, {| self := self s; sample_timer := sample_timer s; REGS := REGS s;
             trace := trace s ++ [e] |}).

Definition set_timer (t : waketime) : M unit := fun s =>
  (Ok tt, {| self := self s; sample_timer := t; REGS := REGS s; trace := trace s |}).

(** [try: body except <catches>: handler]. *)
Definition try_except {A} (body : M A) (catches : exn -> bool) (handler : exn -> M A) : M A :=
  fun s =>
    match body s with
    | (Ok a, s') => (Ok a, s')
    | (Raise e, s') => if catches e then handler e s' else (Raise e, s')
    end.

Definition set_temp (t : float) : M unit :=
  o ← get_self;
  put_self {| name := name o; report_time := report_time o; temp := t;
              min_temp := min_temp o; max_temp := max_temp o; _callback := _callback o |}.

(** ** The driver *)

Definition MLX90614_CHIP_ADDR : Z := 0x5A.
Definition MLX90614_I2C_SPEED : Z := 100000.

Definition MLX90614_REGS : gmap string Z :=
  list_to_map
    [ ("MLX90614_RAWIR1", 0x04);
      ("MLX90614_RAWIR2", 0x05);
      ("MLX90614_TA", 0x06);
      ("MLX90614_TOBJ1", 0x07);
      ("MLX90614_TOBJ2", 0x08);
      ("MLX90614_TOMAX", 0x20);
      ("MLX90614_TOMIN", 0x21);
      ("MLX90614_PWMCTRL", 0x22);
      ("MLX90614_TARANGE", 0x23);
      ("MLX90614_EMISS", 0x24);
      ("MLX90614_CONFIG", 0x25);
      ("MLX90614_ADDR", 0x2E);
      ("MLX90614_ID1", 0x3C);
      ("MLX90614_ID2", 0x3D);
      ("MLX90614_ID3", 0x3E);
      ("MLX90614_ID4", 0x3F) ]%string.

Definition MLX90614_REPORT_TIME : float := lit_0_8.
Definition MLX90614_MIN_REPORT_TIME : float := lit_0_5.

(** [d[key]] on a dictionary. *)
Definition dict_getitem {V} (d : gmap string V) (key : string) : result V :=
  match d !! key with
  | Some v => Ok v
  | None => Raise (KeyError key)
  end.

Section Driver.
Variable h : host.

(** [MLX90614_REGS[reg_name]], read from the module global at call time. *)
Definition lookup_reg (reg_name : string) : M Z :=
  fun s => (dict_getitem (REGS s) reg_name, s).

Definition host_i2c_read (regs : list Z) (read_len : Z) : M (gmap string pyval) :=
  fun s =>
    let r := i2c_read h (trace s) regs read_len in
    match emit (I2CRead regs read_len) s with
    | (_, s') => (r, s')
    end.

Definition host_i2c_write (data : list pyval) : M unit :=
  fun s =>
    let r := i2c_write h (trace s) data in
    match emit (I2CWrite data) s with
    | (_, s') => (r, s')
    end.

Definition read_register (reg_name : string) (read_len : Z) : M pyval :=
  reg ← lookup_reg reg_name;
  params ← host_i2c_read [reg] read_len;
  response ← lift (dict_getitem params "response");
  lift (bytearray response).

(** [data.insert(0, reg)] changes the caller's list when [data] is one;
    the list that goes on the bus is what the trace records. *)
Definition write_register (reg_name : string) (data : pyval) : M unit :=
  let data := match data with PyList l => l | v => [v] end in
  reg ← lookup_reg reg_name;
  host_i2c_write (PyInt reg :: data).

Definition degrees_from_sample (x : pyval) : result float :=
  match py_mul_float x lit_0_02 with
  | Ok p => Ok (fsub p lit_273_15)
  | Raise e => Raise e
  end.

Definition _init_mlx90614 : M unit :=
  try_except
    (v ← read_register "MLX90614_ID1" 1;
     prodid ← lift (py_getitem0 v);
     hex ← lift (format_hex prodid);
     emit (LogInfo ("mlx90614: Chip ID " +:+ hex)))
    (fun _ => true)
    (fun _ => mret tt).

Definition handle_connect : M unit :=
  _init_mlx90614;;
  emit (UpdateTimer NOW);;
  set_timer NOW.

Definition setup_minmax (min_temp' max_temp' : float) : M unit :=
  o ← get_self;
  put_self {| name := name o; report_time := report_time o; temp := temp o;
              min_temp := min_temp'; max_temp := max_temp'; _callback := _callback o |}.

Definition setup_callback (cb : string) : M unit :=
  o ← get_self;
  put_self {| name := name o; report_time := report_time o; temp := temp o;
              min_temp := min_temp o; max_temp := max_temp o; _callback := Some cb |}.

Definition get_report_time_delta : M float :=
  o ← get_self; mret (report_time o).

(** Lines 75-76, the body of the [try]. *)
Definition sample_try : M unit :=
  sample ← read_register "MLX90614_TOBJ1" 2;
  t ← lift (degrees_from_sample sample);
  set_temp t.

Definition out_of_range (o : MLX90614) : bool :=
  flt (temp o) (min_temp o) || flt (max_temp o) (temp o).

Definition shutdown_message (o : MLX90614) : string :=
  "MLX90614 temperature " +:+ format_1f (temp o) +:+ " outside range of "
    +:+ format_1f (min_temp o) +:+ ":" +:+ format_1f (max_temp o).

Definition call_callback (print_time temperature : float) : M unit :=
  o ← get_self;
  match _callback o with
  | Some cb => emit (ReportCallback cb print_time temperature)
  | None => raise (AttributeError "_callback")
  end.

(** Lines 82-89, what follows the [try] statement. *)
Definition sample_report : M waketime :=
  o ← get_self;
  (if out_of_range o then emit (InvokeShutdown (shutdown_message o)) else mret tt);;
  measured_time ← (fun s => (Ok (monotonic h (trace s)), s));
  print_time ← (fun s => (Ok (estimated_print_time h (trace s) measured_time), s));
  o ← get_self;
  call_callback print_time (temp o);;
  mret (At (fadd measured_time (report_time o))).

(** Lines 77-80, the [except Exception] clause. *)
Definition sample_failed (e : exn) : M waketime :=
  emit (LogException "mlx90614: Error reading data" e);;
  set_temp f0_0;;
  mret NEVER.

Definition _sample_mlx90614 (eventtime : float) : M waketime :=
  early ← try_except (sample_try;; mret None) isinstance_Exception
                     (fun e => w ← sample_failed e; mret (Some w));
  match early with
  | Some w => mret w
  | None => sample_report
  end.

Definition get_status (eventtime : float) : M (gmap string pyval) :=
  o ← get_self;
  mret {[ "temperature"%string := PyFloat (py_round2 (temp o)) ]}.

Definition load_config : M unit :=
  emit (AddSensorFactory "MLX90614").

End Driver.

(** ** Construction *)

(** The configuration section handed to the constructor: its name and the
    numeric options it sets. *)
Record config := {
  get_name : string;
  options : gmap string float
}.

(** Modelled from the spec: [config.getfloat] belongs to the host and is
    not in the repository. Section 6 gives its contract: the sampling
    interval has a default and an enforced floor, and a configured value
    below the floor fails configuration validation. *)
Definition getfloat (cfg : config) (option : string) (default minval : float) : result float :=
  match options cfg !! option with
  | None => Ok default
  | Some v =>
      if flt v minval
      then Raise (ConfigError ("Option '" +:+ option +:+ "' must have minimum of "
                                 +:+ format_1f minval))
      else Ok v
  end.

(** [MLX90614.__init__], given the module global and the calls made so
    far; it answers the new instance (or the exception) and the calls made
    up to that point. The reactor creates the timer asleep. *)
Definition __init__ (cfg : config) (regs : gmap string Z) (tr : list event)
  : result state * list event :=
  match py_last (py_split (get_name cfg)) with
  | Raise e => (Raise e, tr)
  | Ok nm =>
      let tr1 := tr ++ [MCU_I2C_from_config MLX90614_CHIP_ADDR MLX90614_I2C_SPEED] in
      match getfloat cfg "MLX90614_report_time" MLX90614_REPORT_TIME
                     MLX90614_MIN_REPORT_TIME with
      | Raise e => (Raise e, tr1)
      | Ok rt =>
          let tr2 := tr1 ++ [RegisterTimer; AddObject ("MLX90614 " +:+ nm);
                             RegisterEventHandler "klippy:connect"] in
          (Ok {| self := {| name := nm; report_time := rt; temp := f0_0;
                            min_temp := f0_0; max_temp := f0_0; _callback := None |};
                 sample_timer := NEVER; REGS := regs; trace := tr2 |}, tr2)
      end
  end.

(** ** The reactor *)

(** Modelled from the spec: the reactor belongs to the host and is not in
    the repository. Section 4.4: a scheduled poller is invoked at or after
    its wake time, and one that answered "never" is not invoked again. *)
Definition due (t : waketime) (eventtime : float) : bool :=
  match t with
  | NOW => true
  | NEVER => false
  | At t => fle t eventtime
  end.

Definition reactor_dispatch (h : host) (eventtime : float) : M unit :=
  fun s =>
    if due (sample_timer s) eventtime
    then match _sample_mlx90614 h eventtime s with
         | (Ok t', s') => set_timer t' s'
         | (Raise e, s') => (Raise e, s')
         end
    else (Ok tt, s).

Fixpoint reactor_run (h : host) (eventtimes : list float) : M unit :=
  match eventtimes with
  | [] => mret tt
  | t :: ts => reactor_dispatch h t;; reactor_run h ts
  end.

(** ** Observations on traces *)

Definition is_shutdown (e : event) : bool :=
  match e with InvokeShutdown _ => true | _ => false end.

Definition is_callback (e : event) : bool :=
  match e with ReportCallback _ _ _ => true | _ => false end.

Definition count (p : event -> bool) (l : list event) : nat :=
  length (filter (fun e => p e = true) l).

(** State after further host calls, a new wake time, a new reading. *)
Definition with_trace (s : state) (tr : list event) : state :=
  {| self := self s; sample_timer := sample_timer s; REGS := REGS s; trace := tr |}.

Definition with_timer (s : state) (t : waketime) : state :=
  {| self := self s; sample_timer := t; REGS := REGS s; trace := trace s |}.

Definition with_temp (s : state) (t : float) : state :=
  {| self := {| name := name (self s); report_time := report_time (self s); temp := t;
                min_temp := min_temp (self s); max_temp := max_temp (self s);
                _callback := _callback (self s) |};
     sample_timer := sample_timer s; REGS := REGS s; trace := trace s |}.

(** The state the [except] clause leaves: the failure logged, the reading
    reset. *)
Definition halted (e : exn) (s : state) : state :=
  with_temp (with_trace s (trace s ++ [LogException "mlx90614: Error reading data" e])) f0_0.

(** A method keeps the module global as it found it. *)
Definition keeps_regs {A} (m : M A) : Prop := forall s, REGS (snd (m s)) = REGS s.

(** The calls [sample_report] makes before its clock reading. *)
Definition shutdown_calls (o : MLX90614) : list event :=
  if out_of_range o then [InvokeShutdown (shutdown_message o)] else [].

(** The conversion in exact arithmetic, [x * 0.02 - 273.15]. *)
Definition exact_degrees (x : Z) : Q := ((x # 1) * (2 # 100) - (27315 # 100))%Q.

Definition tolerance : Q := (1 # 1000000000000)%Q.

Definition sample_within_tolerance (x : Z) : bool :=
  let a := float_of_Z x in
  let t := fsub (fmul a lit_0_02) lit_273_15 in
  is_finite a && is_finite t && negb (feq t f0_0)
  && Qle_bool (Qabs (Q_of_float t - exact_degrees x)) tolerance.

(** [p] holds of the [n] integers from [x] upwards. *)
Fixpoint all_from (n : nat) (x : Z) (p : Z -> bool) : bool :=
  match n with
  | O => true
  | S n' => p x && all_from n' (x + 1) p
  end.

(** ** Sample hosts and states used in the examples *)

Definition response (bs : list byte) : gmap string pyval :=
  {[ "response"%string := PyBytes bs ]}.

(** A bus that answers every read with the two bytes 0x4B 0x3A and a clock
    that stands at 100.0. *)
Definition steady_host : host := {|
  i2c_read := fun _ _ _ => Ok (response [x4b; x3a]);
  i2c_write := fun _ _ => Ok tt;
  monotonic := fun _ => float_of_Z 100;
  estimated_print_time := fun _ t => t
|}.

(** A bus on which every transaction times out. *)
Definition dead_host : host := {|
  i2c_read := fun _ _ _ => Raise (HostException "i2c timeout");
  i2c_write := fun _ _ => Raise (HostException "i2c timeout");
  monotonic := fun _ => float_of_Z 100;
  estimated_print_time := fun _ t => t
|}.

Definition chamber_config : config := {|
  get_name := "temperature_sensor chamber";
  options := ∅
|}.

Definition chamber (t lo hi : float) : state := {|
  self := {| name := "chamber"; report_time := MLX90614_REPORT_TIME; temp := t;
             min_temp := lo; max_temp := hi; _callback := Some "temperature_callback"%string |};
  sample_timer := NOW;
  REGS := MLX90614_REGS;
  trace := []
|}.
(** ** The list argument of [write_register] *)

(** [write_register] called with a list object holding [items]: the
    third component is what the caller's list holds afterwards, since
    [data.insert(0, reg)] changes that very object. *)
Definition write_register_list (h : host) (reg_name : string) (items : list pyval)
  : state -> result unit * state * list pyval :=
  fun s =>
    match lookup_reg reg_name s with
    | (Raise e, s1) => (Raise e, s1, items)
    | (Ok reg, s1) =>
        let items' := PyInt reg :: items in
        (host_i2c_write h items' s1, items')
    end.

(** ** Sequences of method calls *)

(** The methods a host may call on an instance, with their arguments. *)
Inductive call :=
  | Call_handle_connect
  | Call_setup_minmax (min_temp max_temp : float)
  | Call_setup_callback (cb : string)
  | Call_get_report_time_delta
  | Call_sample_mlx90614 (eventtime : float)
  | Call_read_register (reg_name : string) (read_len : Z)
  | Call_write_register (reg_name : string) (data : pyval)
  | Call_get_status (eventtime : float).

(** The state a call leaves, whether it returns or raises. *)
Definition do_call (h : host) (c : call) (s : state) : state :=
  match c with
  | Call_handle_connect => snd (handle_connect h s)
  | Call_setup_minmax lo hi => snd (setup_minmax lo hi s)
  | Call_setup_callback cb => snd (setup_callback cb s)
  | Call_get_report_time_delta => snd (get_report_time_delta s)
  | Call_sample_mlx90614 t => snd (_sample_mlx90614 h t s)
  | Call_read_register r n => snd (read_register h r n s)
  | Call_write_register r d => snd (write_register h r d s)
  | Call_get_status t => snd (get_status t s)
  end.

Definition run_calls (h : host) (cs : list call) (s : state) : state :=
  fold_left (fun s c => do_call h c s) cs s.

(** The instance that [__init__] builds from [chamber_config] with the
    register table of the module, and the same instance once a heater has
    set its bounds and its callback and the host has connected, on
    [steady_host]. *)
Definition chamber_built : state := {|
  self := {| name := "chamber"; report_time := lit_0_8; temp := f0_0;
             min_temp := f0_0; max_temp := f0_0; _callback := None |};
  sample_timer := NEVER;
  REGS := MLX90614_REGS;
  trace := [MCU_I2C_from_config 0x5A 100000; RegisterTimer;
            AddObject "MLX90614 chamber"; RegisterEventHandler "klippy:connect"]
|}.

Definition chamber_in_use (lo hi : float) : state :=
  run_calls steady_host
    [Call_setup_minmax lo hi; Call_setup_callback "temperature_callback";
     Call_handle_connect] chamber_built.

(** Texts of one-byte characters, such texts without blanks, texts of
    blanks only, and texts that are empty or end in a blank. *)
Fixpoint ascii_text (w : string) : bool :=
  match w with
  | EmptyString => true
  | String c w' => (nat_of_ascii c <? 128)%nat && ascii_text w'
  end.

Fixpoint no_space (w : string) : bool :=
  match w with
  | EmptyString => true
  | String c w' => negb (is_ascii_space c) && no_space w'
  end.

Fixpoint all_space (w : string) : bool :=
  match w with
  | EmptyString => true
  | String c w' => is_ascii_space c && all_space w'
  end.

Fixpoint ends_blank (pre : string) : bool :=
  match pre with
  | EmptyString => true
  | String c EmptyString => is_ascii_space c
  | String _ pre' => ends_blank pre'
  end.

(** Calls other than [setup_callback]. *)
Definition not_setup_callback (c : call) : bool :=
  match c with Call_setup_callback _ => false | _ => true end.

(** One step of the life of an instance: what it keeps and what it adds. *)
Definition quiet_step (s s' : state) : Prop :=
  name (self s') = name (self s)
  /\ report_time (self s') = report_time (self s)
  /\ REGS s' = REGS s
  /\ (temp (self s') = temp (self s) \/ temp (self s') = f0_0)
  /\ exists tr, trace s' = trace s ++ tr
                /\ count is_callback tr = 0%nat /\ count is_shutdown tr = 0%nat.

(** * Properties *)

(** ** Floats *)

Lemma SFcompare_swap (a b : float) :
  SFcompare b a = option_map CompOpp (SFcompare a b).
Proof.
  destruct a as [[]|[]| |[] ma ea], b as [[]|[]| |[] mb eb]; simpl; try reflexivity.
  all: rewrite (Z.compare_antisym ea eb); destruct (ea ?= eb)%Z; simpl; try reflexivity.
  all: rewrite (Pos.compare_cont_antisym ma mb Eq); simpl.
  all: destruct (Pos.compare_cont Eq ma mb); reflexivity.
Qed.

Lemma fle_not_flt (a b : float) : fle a b = true -> flt b a = false.
Proof.
  unfold fle, flt, SFleb, SFltb. rewrite (SFcompare_swap a b).
  destruct (SFcompare a b) as [[]|]; simpl; congruence.
Qed.

Lemma nonzero_outside_zero (t : float) :
  is_nan t = false -> feq t f0_0 = false -> flt t f0_0 || flt f0_0 t = true.
Proof.
  destruct t as [[]|[]| |[] m e]; simpl; intros Hn Hz; try discriminate; reflexivity.
Qed.

(** Rounding never produces NaN from a non-negative mantissa. *)
Lemma shr_1_nonneg (mrs : shr_record) : 0 <= shr_m mrs -> 0 <= shr_m (shr_1 mrs).
Proof.
  destruct mrs as [m r s]; simpl. destruct m as [|[p|p|]|p]; simpl; lia.
Qed.

Lemma iter_shr_1_nonneg (p : positive) (mrs : shr_record) :
  0 <= shr_m mrs -> 0 <= shr_m (SpecFloat.iter_pos shr_1 p mrs).
Proof.
  revert mrs. induction p as [p IH|p IH|]; intros mrs H; simpl.
  - apply IH, IH, shr_1_nonneg, H.
  - apply IH, IH, H.
  - apply shr_1_nonneg, H.
Qed.

Lemma shr_fexp_nonneg (m e : Z) (l : location) :
  0 <= m -> 0 <= shr_m (fst (shr_fexp prec emax m e l)).
Proof.
  intros H. unfold shr_fexp, shr.
  assert (H0 : 0 <= shr_m (shr_record_of_loc m l)) by (destruct l as [|[]]; exact H).
  destruct (fexp prec emax (Zdigits2 m + e) - e) as [|p|p]; simpl; try exact H0.
  apply iter_shr_1_nonneg, H0.
Qed.

Lemma round_nearest_even_nonneg (m : Z) (l : location) :
  0 <= m -> 0 <= round_nearest_even m l.
Proof.
  intros H. destruct l as [|[]]; simpl; try lia. destruct (Z.even m); lia.
Qed.

Lemma binary_round_aux_not_nan (s : bool) (m e : Z) (l : location) :
  0 <= m -> is_nan (binary_round_aux prec emax s m e l) = false.
Proof.
  intros H. unfold binary_round_aux.
  pose proof (shr_fexp_nonneg m e l H) as H1.
  destruct (shr_fexp prec emax m e l) as [mrs' e']. simpl in H1.
  pose proof (shr_fexp_nonneg _ e' loc_Exact
                (round_nearest_even_nonneg _ (loc_of_shr_record mrs') H1)) as H2.
  destruct (shr_fexp prec emax (round_nearest_even (shr_m mrs') (loc_of_shr_record mrs')) e' loc_Exact)
    as [mrs'' e'']. simpl in H2.
  destruct (shr_m mrs'') as [|p|p]; try reflexivity.
  - destruct (e'' <=? emax - prec); reflexivity.
  - lia.
Qed.

Lemma binary_normalize_not_nan (m e : Z) (sz : bool) :
  is_nan (binary_normalize prec emax m e sz) = false.
Proof.
  destruct m as [|p|p]; simpl; try reflexivity; unfold binary_round.
  all: destruct (shl_align p e _) as [mz ez]; apply binary_round_aux_not_nan; lia.
Qed.

Lemma fmul_finite_not_nan (a b : float) :
  is_finite a = true -> is_finite b = true -> is_nan (fmul a b) = false.
Proof.
  destruct a as [sa|sa| |sa ma ea], b as [sb|sb| |sb mb eb]; simpl; try discriminate;
    intros _ _; try reflexivity.
  apply binary_round_aux_not_nan. lia.
Qed.

Lemma fsub_finite_not_nan (a b : float) :
  is_nan a = false -> is_finite b = true -> is_nan (fsub a b) = false.
Proof.
  destruct a as [sa|sa| |sa ma ea], b as [sb|sb| |sb mb eb]; simpl; try discriminate;
    intros _ _; try reflexivity.
  - destruct sa, sb; reflexivity.
  - apply binary_normalize_not_nan.
Qed.

Lemma degrees_from_sample_int_not_nan (n : Z) (t : float) :
  degrees_from_sample (PyInt n) = Ok t -> is_nan t = false.
Proof.
  unfold degrees_from_sample, py_mul_float, float_of_int.
  destruct (is_finite (float_of_Z n)) eqn:Hf; [|discriminate].
  intros [= <-]. apply fsub_finite_not_nan; [|reflexivity].
  apply fmul_finite_not_nan; [exact Hf | reflexivity].
Qed.

(** ** Python operators *)

Lemma bytearray_is_bytearray (v w : pyval) :
  bytearray v = Ok w -> exists b, w = PyByteArray b.
Proof.
  destruct v as [ |b|n|f|s|b|b|l]; simpl; try discriminate.
  - intros [= <-]. eauto.
  - destruct (n <? 0); [discriminate|]. destruct (2 ^ 63 <=? n); [discriminate|].
    intros [= <-]. eauto.
  - intros [= <-]. eauto.
  - intros [= <-]. eauto.
  - destruct (bytes_of_items l); [|discriminate]. intros [= <-]. eauto.
Qed.

Lemma degrees_from_bytearray (b : list byte) :
  degrees_from_sample (PyByteArray b) = Raise TypeError.
Proof. reflexivity. Qed.

(** ** The monad *)

Ltac run :=
  unfold mbind, M_bind, mret, M_ret, lift, raise, emit, get_self, put_self, set_timer,
    set_temp, try_except, with_trace, with_timer, with_temp, halted in *; simpl in *.

Lemma read_register_cases (h : host) (reg_name : string) (read_len : Z) (s : state) :
  read_register h reg_name read_len s =
  match REGS s !! reg_name with
  | None => (Raise (KeyError reg_name), s)
  | Some reg =>
      let s1 := with_trace s (trace s ++ [I2CRead [reg] read_len]) in
      match i2c_read h (trace s) [reg] read_len with
      | Raise e => (Raise e, s1)
      | Ok params =>
          match params !! "response"%string with
          | None => (Raise (KeyError "response"), s1)
          | Some v => (bytearray v, s1)
          end
      end
  end.
Proof.
  unfold read_register, lookup_reg, host_i2c_read, dict_getitem. run.
  destruct (REGS s !! reg_name) as [reg|]; [|reflexivity].
  destruct (i2c_read h (trace s) [reg] read_len) as [params|e]; [|reflexivity].
  destruct (params !! "response"%string) as [v|]; reflexivity.
Qed.

(** A register read touches nothing but the trace, to which it adds at
    most the bus transaction, and what it returns is a bytearray. *)
Lemma read_register_effect (h : host) (reg_name : string) (read_len : Z) (s : state) :
  exists tr,
    snd (read_register h reg_name read_len s) = with_trace s (trace s ++ tr) /\
    count is_shutdown tr = 0%nat /\ count is_callback tr = 0%nat /\
    forall v, fst (read_register h reg_name read_len s) = Ok v -> exists b, v = PyByteArray b.
Proof.
  rewrite read_register_cases.
  destruct (REGS s !! reg_name) as [reg|].
  - exists [I2CRead [reg] read_len]. simpl.
    destruct (i2c_read h (trace s) [reg] read_len) as [params|e]; simpl.
    + destruct (params !! "response"%string) as [v|]; simpl.
      * repeat split; try reflexivity. intros w Hw. eapply bytearray_is_bytearray, Hw.
      * repeat split; try reflexivity. discriminate.
    + repeat split; try reflexivity. discriminate.
  - exists []. simpl. unfold with_trace. rewrite app_nil_r. destruct s; simpl.
    repeat split; try reflexivity. discriminate.
Qed.

Lemma sample_try_cases (h : host) (s : state) :
  sample_try h s =
  match read_register h "MLX90614_TOBJ1" 2 s with
  | (Ok sample, s1) =>
      match degrees_from_sample sample with
      | Ok t => (Ok tt, with_temp s1 t)
      | Raise e => (Raise e, s1)
      end
  | (Raise e, s1) => (Raise e, s1)
  end.
Proof.
  unfold sample_try. run.
  destruct (read_register h "MLX90614_TOBJ1" 2 s) as [[sample|e] s1]; [|reflexivity].
  destruct (degrees_from_sample sample); reflexivity.
Qed.

Lemma sample_failed_halts (e : exn) (s : state) :
  sample_failed e s = (Ok NEVER, halted e s).
Proof. reflexivity. Qed.

Lemma sample_cases (h : host) (eventtime : float) (s : state) :
  _sample_mlx90614 h eventtime s =
  match sample_try h s with
  | (Ok _, s1) => sample_report h s1
  | (Raise e, s1) =>
      if isinstance_Exception e then (Ok NEVER, halted e s1) else (Raise e, s1)
  end.
Proof.
  unfold _sample_mlx90614. run.
  destruct (sample_try h s) as [[[]|e] s1]; simpl; [reflexivity|].
  destruct (isinstance_Exception e); reflexivity.
Qed.

Lemma sample_report_cases (h : host) (s : state) :
  sample_report h s =
  let o := self s in
  let tr1 := trace s ++ shutdown_calls o in
  let measured_time := monotonic h tr1 in
  let print_time := estimated_print_time h tr1 measured_time in
  match _callback o with
  | Some cb =>
      (Ok (At (fadd measured_time (report_time o))),
       with_trace s (tr1 ++ [ReportCallback cb print_time (temp o)]))
  | None => (Raise (AttributeError "_callback"), with_trace s tr1)
  end.
Proof.
  unfold sample_report, call_callback, shutdown_calls. run.
  destruct (out_of_range (self s)); simpl.
  - destruct (_callback (self s)); reflexivity.
  - rewrite app_nil_r. destruct (_callback (self s)); [reflexivity|].
    destruct s; reflexivity.
Qed.

Lemma count_app (p : event -> bool) (l1 l2 : list event) :
  count p (l1 ++ l2) = (count p l1 + count p l2)%nat.
Proof. unfold count. rewrite filter_app, length_app. reflexivity. Qed.

(** ** The sampling routine *)

(** C1. What the routine does on a read that succeeds. When the bus
    answers the read of the object register with bytes, whichever they
    are, the conversion of line 76 raises TypeError on the bytearray: the
    routine logs the error, resets the reading to 0.0 and answers [NEVER].
    It calls no callback and answers no wake time, where the claim has the
    callback called once and the next wake time returned. *)
Theorem sample_answered_read_is_not_reported
    (h : host) (eventtime : float) (s : state) (reg : Z)
    (params : gmap string pyval) (bs : list byte) :
  REGS s !! "MLX90614_TOBJ1"%string = Some reg ->
  i2c_read h (trace s) [reg] 2 = Ok params ->
  params !! "response"%string = Some (PyBytes bs) ->
  let s1 := with_trace s (trace s ++ [I2CRead [reg] 2]) in
  let failure := LogException "mlx90614: Error reading data" TypeError in
  read_register h "MLX90614_TOBJ1" 2 s = (Ok (PyByteArray bs), s1)
  /\ degrees_from_sample (PyByteArray bs) = Raise TypeError
  /\ _sample_mlx90614 h eventtime s = (Ok NEVER, halted TypeError s1)
  /\ trace (halted TypeError s1) = trace s ++ [I2CRead [reg] 2; failure]
  /\ count is_callback [I2CRead [reg] 2; failure] = 0%nat
  /\ temp (self (halted TypeError s1)) = f0_0.
Proof.
  intros Hreg Hbus Hresp. cbv zeta.
  assert (Hread : read_register h "MLX90614_TOBJ1" 2 s
                  = (Ok (PyByteArray bs), with_trace s (trace s ++ [I2CRead [reg] 2]))).
  { rewrite read_register_cases, Hreg. simpl. rewrite Hbus, Hresp. reflexivity. }
  split; [exact Hread|]. split; [reflexivity|]. split.
  - rewrite sample_cases, sample_try_cases, Hread. reflexivity.
  - split; [|split; reflexivity].
    unfold halted, with_temp, with_trace. simpl. rewrite <- app_assoc. reflexivity.
Qed.

Lemma sample_answered_read_is_not_reported_witness :
  let s := chamber_in_use f0_0 (float_of_Z 300) in
  fst (__init__ chamber_config MLX90614_REGS []) = Ok chamber_built
  /\ _sample_mlx90614 steady_host (float_of_Z 100) s
     = (Ok NEVER, halted TypeError (with_trace s (trace s ++ [I2CRead [0x07] 2]))).
Proof.
  intros s. split; [reflexivity|].
  exact (proj1 (proj2 (proj2
           (sample_answered_read_is_not_reported steady_host (float_of_Z 100) s 0x07
              (response [x4b; x3a]) [x4b; x3a] eq_refl eq_refl eq_refl)))).
Defined.

(** C2. When the guarded block raises an error, the routine logs it,
    resets the reading to 0.0 and answers [NEVER]; the reactor then never
    invokes the routine again, so the state (reading and trace, hence bus
    reads) stays as it is whatever times the reactor passes through. *)
Theorem sample_error_halts
    (h : host) (eventtime : float) (s s1 : state) (e : exn) :
  sample_try h s = (Raise e, s1) ->
  isinstance_Exception e = true ->
  _sample_mlx90614 h eventtime s = (Ok NEVER, halted e s1)
  /\ temp (self (halted e s1)) = f0_0
  /\ trace (halted e s1) = trace s1 ++ [LogException "mlx90614: Error reading data" e]
  /\ (due (sample_timer s) eventtime = true ->
      reactor_dispatch h eventtime s = (Ok tt, with_timer (halted e s1) NEVER))
  /\ forall eventtimes : list float,
       reactor_run h eventtimes (with_timer (halted e s1) NEVER)
       = (Ok tt, with_timer (halted e s1) NEVER).
Proof.
  intros Htry Hexc.
  assert (Hs : _sample_mlx90614 h eventtime s = (Ok NEVER, halted e s1)).
  { rewrite sample_cases, Htry, Hexc. reflexivity. }
  split; [exact Hs|]. split; [reflexivity|]. split; [reflexivity|]. split.
  - intros Hdue. unfold reactor_dispatch. rewrite Hdue, Hs. reflexivity.
  - induction eventtimes as [|t ts IH]; [reflexivity|].
    simpl. unfold mbind, M_bind. unfold reactor_dispatch at 1. simpl. exact IH.
Qed.

Lemma sample_error_halts_witness :
  let s := chamber (float_of_Z 5) f0_0 f0_0 in
  let e := HostException "i2c timeout" in
  let s1 := with_trace s [I2CRead [7] 2] in
  _sample_mlx90614 dead_host f0_0 s = (Ok NEVER, halted e s1)
  /\ temp (self (halted e s1)) = f0_0
  /\ trace (halted e s1) = trace s1 ++ [LogException "mlx90614: Error reading data" e]
  /\ (due (sample_timer s) f0_0 = true ->
      reactor_dispatch dead_host f0_0 s = (Ok tt, with_timer (halted e s1) NEVER))
  /\ forall eventtimes : list float,
       reactor_run dead_host eventtimes (with_timer (halted e s1) NEVER)
       = (Ok tt, with_timer (halted e s1) NEVER).
Proof.
  intros s e s1.
  exact (sample_error_halts dead_host f0_0 s s1 e eq_refl eq_refl).
Defined.

(** C9. What the routine hands to the conversion is the bytearray that
    [read_register] returns, never a number decoded from it, and a
    bytearray times 0.02 raises TypeError inside the guarded block. So
    whenever the bus read returns, whatever it returns, the [except] clause
    runs: the reading becomes 0.0 and the answer is [NEVER]. The same
    happens when the read raises an error; only an exception of the host
    that does not derive from Exception passes through. In every case the
    guarded block does not complete, the routine answers no wake time, and
    it reaches neither the safety check nor the callback. *)
Theorem sample_success_unreachable (h : host) (eventtime : float) (s : state) :
  match read_register h "MLX90614_TOBJ1" 2 s with
  | (Ok sample, s1) =>
      (exists b, sample = PyByteArray b)
      /\ degrees_from_sample sample = Raise TypeError
      /\ _sample_mlx90614 h eventtime s = (Ok NEVER, halted TypeError s1)
      /\ temp (self (halted TypeError s1)) = f0_0
  | (Raise e, s1) =>
      _sample_mlx90614 h eventtime s =
      if isinstance_Exception e then (Ok NEVER, halted e s1) else (Raise e, s1)
  end
  /\ (forall s1, sample_try h s <> (Ok tt, s1))
  /\ (forall t, fst (_sample_mlx90614 h eventtime s) <> Ok (At t))
  /\ exists tr,
       trace (snd (_sample_mlx90614 h eventtime s)) = trace s ++ tr
       /\ count is_shutdown tr = 0%nat /\ count is_callback tr = 0%nat.
Proof.
  destruct (read_register_effect h "MLX90614_TOBJ1" 2 s) as (tr & Hs1 & Hsh & Hcb & Hba).
  rewrite sample_cases, sample_try_cases.
  destruct (read_register h "MLX90614_TOBJ1" 2 s) as [[sample|e] s1]; simpl in *.
  - destruct (Hba sample eq_refl) as [b ->]. simpl.
    split; [|split; [|split]].
    + repeat split; eauto.
    + discriminate.
    + discriminate.
    + exists (tr ++ [LogException "mlx90614: Error reading data" TypeError]).
      subst s1. simpl. rewrite count_app, count_app, Hsh, Hcb, app_assoc. auto.
  - split; [reflexivity|]. split; [discriminate|].
    destruct (isinstance_Exception e); simpl.
    + split; [discriminate|].
      exists (tr ++ [LogException "mlx90614: Error reading data" e]).
      subst s1. simpl. rewrite count_app, count_app, Hsh, Hcb, app_assoc. auto.
    + split; [discriminate|]. exists tr. subst s1. auto.
Qed.

Example sample_on_answering_bus :
  _sample_mlx90614 steady_host f0_0 (chamber (float_of_Z 20) f0_0 (float_of_Z 300))
  = (Ok NEVER,
     with_trace (chamber f0_0 f0_0 (float_of_Z 300))
       [I2CRead [0x07] 2; LogException "mlx90614: Error reading data" TypeError]).
Proof. vm_compute. reflexivity. Qed.

(** ** The safety check *)

Lemma is_infix_unfold (needle hay : string) :
  is_infix needle hay =
  String.prefix needle hay
  || match hay with
     | EmptyString => false
     | String _ hay' => is_infix needle hay'
     end.
Proof. destruct hay; reflexivity. Qed.

Lemma prefix_append (x b : string) : String.prefix x (x +:+ b) = true.
Proof.
  induction x as [|c x IH].
  - change ("" +:+ b) with b. destruct b; reflexivity.
  - change (String c x +:+ b) with (String c (x +:+ b)). simpl.
    destruct (ascii_dec c c) as [_|Hne]; [exact IH | congruence].
Qed.

Lemma is_infix_append (a x b : string) : is_infix x (a +:+ x +:+ b) = true.
Proof.
  induction a as [|c a IH].
  - change ("" +:+ x +:+ b) with (x +:+ b).
    rewrite is_infix_unfold, prefix_append. reflexivity.
  - change (String c a +:+ x +:+ b) with (String c (a +:+ x +:+ b)).
    rewrite is_infix_unfold, IH. apply orb_true_r.
Qed.

Lemma append_assoc (a b c : string) : (a +:+ b) +:+ c = a +:+ b +:+ c.
Proof.
  induction a as [|x a IH]; [reflexivity|].
  change ((String x a +:+ b) +:+ c) with (String x ((a +:+ b) +:+ c)).
  rewrite IH. reflexivity.
Qed.

Lemma append_nil_r (a : string) : a +:+ "" = a.
Proof.
  induction a as [|x a IH]; [reflexivity|].
  change (String x a +:+ "") with (String x (a +:+ "")). rewrite IH. reflexivity.
Qed.

Lemma is_infix_end (a x : string) : is_infix x (a +:+ x) = true.
Proof.
  pose proof (is_infix_append a x "") as H.
  rewrite append_nil_r in H. exact H.
Qed.

(** C3, as stated, fails at the instance named "chamber" with bounds 0.0
    and 20.0, connected to a bus that answers the sample 0x4B 0x3A. That
    sample (14923 with the low byte first) converts to 25.31, above the
    upper bound, and the message lines 84-85 build for it does not contain
    the instance name; and the routine, run on that instance and that bus,
    answers [NEVER] without any shutdown request. *)
Lemma shutdown_claim_fails_for_chamber :
  let s := chamber_in_use f0_0 (float_of_Z 20) in
  let t := fsub (fmul (float_of_Z 14923) lit_0_02) lit_273_15 in
  fst (__init__ chamber_config MLX90614_REGS []) = Ok chamber_built
  /\ name (self s) = "chamber"%string
  /\ degrees_from_sample (PyInt 14923) = Ok t
  /\ out_of_range (self (with_temp s t)) = true
  /\ shutdown_message (self (with_temp s t))
     = "MLX90614 temperature 25.3 outside range of 0.0:20.0"%string
  /\ is_infix (name (self s)) (shutdown_message (self (with_temp s t))) = false
  /\ fst (_sample_mlx90614 steady_host f0_0 s) = Ok NEVER
  /\ count is_shutdown (trace (snd (_sample_mlx90614 steady_host f0_0 s))) = 0%nat.
Proof. vm_compute. repeat split. Qed.

(** C3, amended. The condition on which line 82 asks for the shutdown is
    true if and only if the reading is strictly below [min_temp] or
    strictly above [max_temp]. The message of lines 84-85 is the fixed text
    "MLX90614 temperature ", the reading, " outside range of ", and the two
    bounds separated by a colon, each number with one decimal: it contains
    the reading and both bounds, and it is the same for two instances that
    differ in their name only. Whether the request is made and the cycle
    goes on is not stated here. *)
Theorem shutdown_condition_and_message (o o' : MLX90614) :
  (out_of_range o = true <->
     flt (temp o) (min_temp o) = true \/ flt (max_temp o) (temp o) = true)
  /\ shutdown_message o
     = "MLX90614 temperature " +:+ format_1f (temp o) +:+ " outside range of "
         +:+ format_1f (min_temp o) +:+ ":" +:+ format_1f (max_temp o)
  /\ is_infix (format_1f (temp o)) (shutdown_message o) = true
  /\ is_infix (format_1f (min_temp o)) (shutdown_message o) = true
  /\ is_infix (format_1f (max_temp o)) (shutdown_message o) = true
  /\ (temp o' = temp o -> min_temp o' = min_temp o -> max_temp o' = max_temp o ->
      shutdown_message o' = shutdown_message o).
Proof.
  split; [unfold out_of_range; rewrite orb_true_iff; reflexivity|].
  split; [reflexivity|]. unfold shutdown_message.
  split; [apply is_infix_append|]. split; [|split].
  - rewrite <- (append_assoc "MLX90614 temperature " (format_1f (temp o))).
    rewrite <- (append_assoc _ " outside range of ").
    apply is_infix_append.
  - rewrite <- (append_assoc "MLX90614 temperature " (format_1f (temp o))).
    rewrite <- (append_assoc _ " outside range of ").
    rewrite <- (append_assoc _ (format_1f (min_temp o))).
    rewrite <- (append_assoc _ ":").
    apply is_infix_end.
  - intros -> -> ->. reflexivity.
Qed.

(** ** Connect *)

Lemma init_effect (h : host) (s : state) :
  exists probe, _init_mlx90614 h s = (Ok tt, with_trace s (trace s ++ probe))
                /\ count is_shutdown probe = 0%nat /\ count is_callback probe = 0%nat.
Proof.
  unfold _init_mlx90614. run. rewrite read_register_cases.
  destruct (REGS s !! "MLX90614_ID1"%string) as [reg|]; simpl.
  2:{ exists []. rewrite app_nil_r. destruct s; auto. }
  destruct (i2c_read h (trace s) [reg] 1) as [params|e]; simpl.
  2:{ exists [I2CRead [reg] 1]. auto. }
  destruct (params !! "response"%string) as [v|]; simpl.
  2:{ exists [I2CRead [reg] 1]. auto. }
  destruct (bytearray v) as [w|e]; simpl.
  2:{ exists [I2CRead [reg] 1]. auto. }
  destruct (py_getitem0 w) as [prodid|e]; simpl.
  2:{ exists [I2CRead [reg] 1]. auto. }
  destruct (format_hex prodid) as [hex|e]; simpl.
  2:{ exists [I2CRead [reg] 1]. auto. }
  exists [I2CRead [reg] 1; LogInfo ("mlx90614: Chip ID " +:+ hex)].
  rewrite <- app_assoc. auto.
Qed.

Lemma handle_connect_effect (h : host) (s : state) :
  exists probe,
    handle_connect h s =
    (Ok tt, with_timer (with_trace s (trace s ++ probe ++ [UpdateTimer NOW])) NOW).
Proof.
  destruct (init_effect h s) as (probe & Hinit & _ & _).
  exists probe. unfold handle_connect. unfold mbind, M_bind. rewrite Hinit. run.
  rewrite <- app_assoc. reflexivity.
Qed.

(** C6. Whatever the identity probe does (the bus raises anything at all, the
    response is missing, empty or of the wrong type), [handle_connect]
    returns normally and has set the timer to wake [NOW], which is due at
    every reactor time; the instance attributes are untouched. *)
Theorem connect_always_schedules (h : host) (s : state) :
  exists probe,
    handle_connect h s =
    (Ok tt, with_timer (with_trace s (trace s ++ probe ++ [UpdateTimer NOW])) NOW)
    /\ (forall eventtime, due (sample_timer (snd (handle_connect h s))) eventtime = true)
    /\ self (snd (handle_connect h s)) = self s.
Proof.
  destruct (handle_connect_effect h s) as (probe & H).
  exists probe. rewrite H. repeat split.
Qed.

(** ** The register table *)

Lemma keeps_regs_ret {A} (a : A) : keeps_regs (mret a).
Proof. intros s. reflexivity. Qed.

Lemma keeps_regs_bind {A B} (m : M A) (f : A -> M B) :
  keeps_regs m -> (forall a, keeps_regs (f a)) -> keeps_regs (m ≫= f).
Proof.
  intros Hm Hf s. unfold mbind, M_bind. specialize (Hm s).
  destruct (m s) as [[a|e] s1]; simpl in *; [|exact Hm].
  rewrite Hf. exact Hm.
Qed.

Lemma keeps_regs_try {A} (body : M A) (catches : exn -> bool) (handler : exn -> M A) :
  keeps_regs body -> (forall e, keeps_regs (handler e)) ->
  keeps_regs (try_except body catches handler).
Proof.
  intros Hb Hh s. unfold try_except. specialize (Hb s).
  destruct (body s) as [[a|e] s1]; simpl in *; [exact Hb|].
  destruct (catches e); simpl; [rewrite Hh|]; exact Hb.
Qed.

Lemma keeps_regs_lift {A} (r : result A) : keeps_regs (lift r).
Proof. intros s. reflexivity. Qed.

Lemma keeps_regs_raise {A} (e : exn) : keeps_regs (raise (A:=A) e).
Proof. intros s. reflexivity. Qed.

Lemma keeps_regs_emit (e : event) : keeps_regs (emit e).
Proof. intros s. reflexivity. Qed.

Lemma keeps_regs_get_self : keeps_regs get_self.
Proof. intros s. reflexivity. Qed.

Lemma keeps_regs_put_self (o : MLX90614) : keeps_regs (put_self o).
Proof. intros s. reflexivity. Qed.

Lemma keeps_regs_set_timer (t : waketime) : keeps_regs (set_timer t).
Proof. intros s. reflexivity. Qed.

Lemma keeps_regs_lookup_reg (reg_name : string) : keeps_regs (lookup_reg reg_name).
Proof. intros s. reflexivity. Qed.

Lemma keeps_regs_i2c_read (h : host) (regs : list Z) (n : Z) : keeps_regs (host_i2c_read h regs n).
Proof. intros s. reflexivity. Qed.

Lemma keeps_regs_i2c_write (h : host) (data : list pyval) : keeps_regs (host_i2c_write h data).
Proof. intros s. reflexivity. Qed.

Create HintDb regs.
#[export] Hint Resolve keeps_regs_ret keeps_regs_lift keeps_regs_raise keeps_regs_emit
  keeps_regs_get_self keeps_regs_put_self keeps_regs_set_timer keeps_regs_lookup_reg
  keeps_regs_i2c_read keeps_regs_i2c_write : regs.

Ltac keeps :=
  repeat first
    [ apply keeps_regs_bind; [|intros ?]
    | apply keeps_regs_try; [|intros ?]
    | progress auto with regs
    | match goal with
      | |- keeps_regs (match ?x with _ => _ end) => destruct x
      | |- keeps_regs (if ?x then _ else _) => destruct x
      end
    | intros ? ; reflexivity ].

Lemma keeps_regs_read_register (h : host) (reg_name : string) (n : Z) :
  keeps_regs (read_register h reg_name n).
Proof. unfold read_register. keeps. Qed.

Lemma keeps_regs_write_register (h : host) (reg_name : string) (data : pyval) :
  keeps_regs (write_register h reg_name data).
Proof. unfold write_register. keeps. Qed.

Lemma keeps_regs_init (h : host) : keeps_regs (_init_mlx90614 h).
Proof. unfold _init_mlx90614. pose proof keeps_regs_read_register. keeps. Qed.

Lemma keeps_regs_handle_connect (h : host) : keeps_regs (handle_connect h).
Proof. unfold handle_connect. pose proof keeps_regs_init. keeps. Qed.

Lemma keeps_regs_sample (h : host) (eventtime : float) : keeps_regs (_sample_mlx90614 h eventtime).
Proof.
  unfold _sample_mlx90614, sample_try, sample_failed, sample_report, call_callback, set_temp.
  pose proof keeps_regs_read_register. keeps.
Qed.

Lemma keeps_regs_dispatch (h : host) (eventtime : float) : keeps_regs (reactor_dispatch h eventtime).
Proof.
  intros s. unfold reactor_dispatch. destruct (due (sample_timer s) eventtime); [|reflexivity].
  pose proof (keeps_regs_sample h eventtime s) as H.
  destruct (_sample_mlx90614 h eventtime s) as [[w|e] s1]; exact H.
Qed.

Lemma keeps_regs_run (h : host) (eventtimes : list float) : keeps_regs (reactor_run h eventtimes).
Proof.
  induction eventtimes as [|t ts IH]; simpl.
  - apply keeps_regs_ret.
  - apply keeps_regs_bind; [apply keeps_regs_dispatch | intros _; exact IH].
Qed.

(** C7. The table gives the fixed addresses (object channel 1 at 0x07,
    ambient at 0x06, the identity registers at 0x3C to 0x3F), the
    connection uses device address 0x5A at 100 kHz, a name in the table is
    read at its address, a name outside it raises KeyError before any bus
    traffic, and no method changes the table. *)
Theorem register_lookup
    (h : host) (reg_name : string) (read_len : Z) (data : pyval) (s : state) :
  REGS s = MLX90614_REGS ->
  (MLX90614_REGS !! "MLX90614_TOBJ1"%string = Some 0x07
   /\ MLX90614_REGS !! "MLX90614_TA"%string = Some 0x06
   /\ MLX90614_REGS !! "MLX90614_ID1"%string = Some 0x3C
   /\ MLX90614_REGS !! "MLX90614_ID2"%string = Some 0x3D
   /\ MLX90614_REGS !! "MLX90614_ID3"%string = Some 0x3E
   /\ MLX90614_REGS !! "MLX90614_ID4"%string = Some 0x3F
   /\ size MLX90614_REGS = 16%nat)
  /\ (MLX90614_CHIP_ADDR = 0x5A /\ MLX90614_I2C_SPEED = 100000
      /\ forall cfg regs tr s0, fst (__init__ cfg regs tr) = Ok s0 ->
           In (MCU_I2C_from_config 0x5A 100000) (trace s0))
  /\ match MLX90614_REGS !! reg_name with
     | Some addr =>
         lookup_reg reg_name s = (Ok addr, s)
         /\ trace (snd (read_register h reg_name read_len s))
            = trace s ++ [I2CRead [addr] read_len]
     | None =>
         lookup_reg reg_name s = (Raise (KeyError reg_name), s)
         /\ read_register h reg_name read_len s = (Raise (KeyError reg_name), s)
         /\ write_register h reg_name data s = (Raise (KeyError reg_name), s)
     end
  /\ (keeps_regs (read_register h reg_name read_len)
      /\ keeps_regs (write_register h reg_name data)
      /\ keeps_regs (handle_connect h)
      /\ (forall eventtime, keeps_regs (_sample_mlx90614 h eventtime))
      /\ (forall eventtime, keeps_regs (get_status eventtime))
      /\ (forall eventtimes, keeps_regs (reactor_run h eventtimes))).
Proof.
  intros Hregs. split; [|split; [|split]].
  - vm_compute. repeat split.
  - split; [reflexivity|]. split; [reflexivity|].
    intros cfg regs tr s0. unfold __init__.
    destruct (py_last (py_split (get_name cfg))); [|discriminate].
    destruct (getfloat cfg _ _ _); [|discriminate].
    simpl. intros [= <-]. simpl. rewrite !in_app_iff. simpl. auto.
  - rewrite read_register_cases. unfold write_register, lookup_reg, dict_getitem.
    unfold mbind, M_bind. rewrite Hregs.
    destruct (MLX90614_REGS !! reg_name) as [addr|].
    + split; [reflexivity|]. simpl.
      destruct (i2c_read h (trace s) [addr] read_len) as [params|e]; [|reflexivity].
      destruct (params !! "response"%string); reflexivity.
    + repeat split.
  - split; [apply keeps_regs_read_register|].
    split; [apply keeps_regs_write_register|].
    split; [apply keeps_regs_handle_connect|].
    split; [intros; apply keeps_regs_sample|].
    split; [intros eventtime s'; reflexivity|].
    intros; apply keeps_regs_run.
Qed.

Lemma register_lookup_witness :
  let s := chamber f0_0 f0_0 f0_0 in
  lookup_reg "MLX90614_TOBJ1" s = (Ok 0x07, s)
  /\ trace (snd (read_register steady_host "MLX90614_TOBJ1" 2 s)) = trace s ++ [I2CRead [0x07] 2].
Proof.
  intros s.
  exact (proj1 (proj2 (proj2 (register_lookup steady_host "MLX90614_TOBJ1" 2 PyNone s eq_refl)))).
Defined.

(** ** Status *)

(** What [round(f, 2)] and ["%0.1f" % f] round to. *)

Lemma round_half_even_div_near (a d : Z) :
  0 <= a -> 0 < d -> Z.abs (2 * (round_half_even_div a d * d - a)) <= d.
Proof.
  intros Ha Hd. unfold round_half_even_div.
  pose proof (Z.div_mod a d ltac:(lia)) as Hdm.
  pose proof (Z.mod_pos_bound a d Hd) as Hr.
  destruct (Z.compare_spec (2 * (a mod d)) d) as [He|Hl|Hg].
  - destruct (Z.even (a / d)); nia.
  - nia.
  - nia.
Qed.

(** The integer [scaled_round k m e] is within one half of [m * 2^e * k]. *)
Lemma scaled_round_near (k : Z) (m : positive) (e : Z) :
  0 < k ->
  (Qabs ((scaled_round k m e # 1) - (k # 1) * Q_of_float (S754_finite false m e)) <= 1 # 2)%Q.
Proof.
  intros Hk. unfold scaled_round, Q_of_float.
  destruct e as [|p|p].
  - apply Qle_bool_iff. unfold Qle_bool, Qabs, Qminus, Qplus, Qmult, Qopp. simpl.
    apply Z.leb_le. rewrite ?Z.mul_1_r, ?Pos.mul_1_r. simpl. 
    replace (Z.pos m * k * 1 + - (k * Z.pos m)) with 0 by lia. simpl. lia.
  - apply Qle_bool_iff. unfold Qle_bool, Qabs, Qminus, Qplus, Qmult, Qopp.
    apply Z.leb_le. cbn [Qnum Qden]. rewrite ?Z.mul_1_r, ?Pos.mul_1_r.
    replace (Z.pos m * k * 2 ^ Z.pos p + - (k * (Z.pos m * 2 ^ Z.pos p))) with 0 by lia. simpl. lia.
  - pose proof (round_half_even_div_near (Z.pos m * k) (2 ^ Z.pos p) ltac:(lia) ltac:(lia)) as H.
    set (N := round_half_even_div (Z.pos m * k) (2 ^ Z.pos p)) in *.
    apply Qle_bool_iff. unfold Qle_bool, Qabs, Qminus, Qplus, Qmult, Qopp.
    apply Z.leb_le. cbn [Qnum Qden]. rewrite ?Z.mul_1_r, ?Pos.mul_1_l.
    rewrite Pos2Z.inj_pow in *.
    replace (N * (Z.pos 2 ^ Z.pos p) + - (k * Z.pos m) * 1) with (N * 2 ^ Z.pos p - Z.pos m * k) by lia.
    lia.
Qed.

(** C8. [get_status] answers the stored reading rounded to two decimals
    under the key "temperature", leaves the state as it is and ignores its
    argument, so calls repeated between samples answer the same. Rounded
    to two decimals: for a finite reading, the answer is the float nearest
    to [n / 100], with the sign of the reading, where the integer [n] is
    within one half of 100 times its magnitude. *)
Theorem status_is_rounded_reading (eventtime eventtime' : float) (s : state) :
  get_status eventtime s
  = (Ok {[ "temperature"%string := PyFloat (py_round2 (temp (self s))) ]}, s)
  /\ get_status eventtime' s = get_status eventtime s
  /\ (get_status eventtime;; get_status eventtime') s = get_status eventtime s
  /\ (forall t, fst (get_status eventtime (with_temp s t))
                = Ok {[ "temperature"%string := PyFloat (py_round2 t) ]})
  /\ forall sg m e,
       temp (self s) = S754_finite sg m e ->
       let n := scaled_round 100 m e in
       (Qabs ((n # 1) - (100 # 1) * Q_of_float (S754_finite false m e)) <= 1 # 2)%Q
       /\ py_round2 (temp (self s))
          = match n with
            | Zpos n' => fdiv (S754_finite sg n' 0) (S754_finite false 100 0)
            | _ => S754_zero sg
            end.
Proof.
  split; [reflexivity|]. split; [reflexivity|]. split; [reflexivity|].
  split; [reflexivity|].
  intros sg m e Htemp n. split.
  - apply scaled_round_near. lia.
  - rewrite Htemp. reflexivity.
Qed.

Example status_rounds_half_to_even :
  py_round2 (float_lit 125 3) = float_lit 12 2
  /\ py_round2 (float_lit 2675 3) = float_lit 267 2
  /\ py_round2 (float_lit 305128 3) = float_lit 30513 2
  /\ py_round2 (float_lit (-1) 3) = S754_zero true
  /\ py_round2 f0_0 = f0_0.
Proof. vm_compute. repeat split. Qed.

(** ** Construction *)

Lemma init_cases (cfg : config) (regs : gmap string Z) (tr : list event) (nm : string) :
  py_last (py_split (get_name cfg)) = Ok nm ->
  __init__ cfg regs tr =
  let tr1 := tr ++ [MCU_I2C_from_config MLX90614_CHIP_ADDR MLX90614_I2C_SPEED] in
  match getfloat cfg "MLX90614_report_time" MLX90614_REPORT_TIME MLX90614_MIN_REPORT_TIME with
  | Raise e => (Raise e, tr1)
  | Ok rt =>
      let tr2 := tr1 ++ [RegisterTimer; AddObject ("MLX90614 " +:+ nm);
                         RegisterEventHandler "klippy:connect"] in
      (Ok {| self := {| name := nm; report_time := rt; temp := f0_0;
                        min_temp := f0_0; max_temp := f0_0; _callback := None |};
             sample_timer := NEVER; REGS := regs; trace := tr2 |}, tr2)
  end.
Proof. intros H. unfold __init__. rewrite H. reflexivity. Qed.

Lemma init_zeroes (cfg : config) (regs : gmap string Z) (tr : list event) (s0 : state) :
  fst (__init__ cfg regs tr) = Ok s0 ->
  temp (self s0) = f0_0 /\ min_temp (self s0) = f0_0 /\ max_temp (self s0) = f0_0.
Proof.
  unfold __init__.
  destruct (py_last (py_split (get_name cfg))); [|discriminate].
  destruct (getfloat cfg _ _ _); [|discriminate].
  simpl. intros [= <-]. repeat split.
Qed.

(** C5. A configured interval below 0.5 makes construction fail with a
    configuration error, before the timer and the connect handler are
    registered; one of at least 0.5 is accepted and becomes [report_time],
    which [get_report_time_delta] answers and the rescheduling adds to the
    clock reading; with nothing configured the interval is 0.8. *)
Theorem report_time_validated
    (cfg : config) (regs : gmap string Z) (tr : list event) (nm : string) :
  py_last (py_split (get_name cfg)) = Ok nm ->
  match options cfg !! "MLX90614_report_time"%string with
  | Some r =>
      (flt r lit_0_5 = true ->
       exists msg,
         __init__ cfg regs tr
         = (Raise (ConfigError msg), tr ++ [MCU_I2C_from_config 0x5A 100000]))
      /\ (fle lit_0_5 r = true ->
          exists s0,
            fst (__init__ cfg regs tr) = Ok s0
            /\ report_time (self s0) = r
            /\ get_report_time_delta s0 = (Ok r, s0)
            /\ forall h cb, exists measured_time,
                 fst (sample_report h (snd (setup_callback cb s0)))
                 = Ok (At (fadd measured_time r)))
  | None =>
      exists s0,
        fst (__init__ cfg regs tr) = Ok s0
        /\ report_time (self s0) = lit_0_8
        /\ get_report_time_delta s0 = (Ok lit_0_8, s0)
  end.
Proof.
  intros Hnm. rewrite (init_cases cfg regs tr nm Hnm). unfold getfloat.
  destruct (options cfg !! "MLX90614_report_time"%string) as [r|].
  - split.
    + intros Hlt. unfold MLX90614_MIN_REPORT_TIME. rewrite Hlt. simpl. eauto.
    + intros Hle. unfold MLX90614_MIN_REPORT_TIME. rewrite (fle_not_flt _ _ Hle). simpl.
      eexists. split; [reflexivity|]. split; [reflexivity|]. split; [reflexivity|].
      intros h cb. rewrite sample_report_cases. simpl. eauto.
  - simpl. eexists. repeat split.
Qed.

Lemma report_time_validated_witness :
  let cfg := {| get_name := "temperature_sensor chamber";
                options := {[ "MLX90614_report_time"%string := float_lit 3 1 ]} |} in
  exists msg,
    __init__ cfg MLX90614_REGS [] = (Raise (ConfigError msg), [MCU_I2C_from_config 0x5A 100000]).
Proof.
  intros cfg.
  exact (proj1 (report_time_validated cfg MLX90614_REGS [] "chamber" eq_refl) eq_refl).
Defined.

(** C10. A new instance has reading and both bounds at 0.0. Sampled before
    the bounds are set, on a bus that answers the read with bytes, the
    routine converts nothing: line 76 raises TypeError, the reading stays
    0.0, the answer is [NEVER], and no shutdown is requested, where the
    claim has every converted reading other than 0.0 trigger one. *)
Theorem fresh_instance_requests_no_shutdown
    (cfg : config) (regs : gmap string Z) (tr : list event) (s0 : state)
    (h : host) (eventtime : float) (reg : Z) (params : gmap string pyval) (bs : list byte) :
  fst (__init__ cfg regs tr) = Ok s0 ->
  regs !! "MLX90614_TOBJ1"%string = Some reg ->
  i2c_read h (trace s0) [reg] 2 = Ok params ->
  params !! "response"%string = Some (PyBytes bs) ->
  (temp (self s0) = f0_0 /\ min_temp (self s0) = f0_0 /\ max_temp (self s0) = f0_0)
  /\ fst (_sample_mlx90614 h eventtime s0) = Ok NEVER
  /\ trace (snd (_sample_mlx90614 h eventtime s0))
     = trace s0 ++ [I2CRead [reg] 2; LogException "mlx90614: Error reading data" TypeError]
  /\ count is_shutdown (trace (snd (_sample_mlx90614 h eventtime s0)))
     = count is_shutdown (trace s0)
  /\ temp (self (snd (_sample_mlx90614 h eventtime s0))) = f0_0.
Proof.
  intros Hinit Hreg Hbus Hresp.
  split; [exact (init_zeroes _ _ _ _ Hinit)|].
  assert (Hregs : REGS s0 = regs).
  { revert Hinit. unfold __init__.
    destruct (py_last (py_split (get_name cfg))); [|discriminate].
    destruct (getfloat cfg _ _ _); [|discriminate].
    simpl. intros [= <-]. reflexivity. }
  assert (Hs : _sample_mlx90614 h eventtime s0
               = (Ok NEVER, halted TypeError (with_trace s0 (trace s0 ++ [I2CRead [reg] 2])))).
  { rewrite sample_cases, sample_try_cases, read_register_cases, Hregs, Hreg. simpl.
    rewrite Hbus, Hresp. reflexivity. }
  rewrite Hs. split; [reflexivity|].
  assert (Htr : trace (halted TypeError (with_trace s0 (trace s0 ++ [I2CRead [reg] 2])))
                = trace s0 ++ [I2CRead [reg] 2;
                               LogException "mlx90614: Error reading data" TypeError]).
  { unfold halted, with_temp, with_trace. simpl. rewrite <- app_assoc. reflexivity. }
  split; [exact Htr|]. split; [|reflexivity].
  simpl snd. rewrite Htr, count_app. exact (Nat.add_0_r _).
Qed.

Lemma fresh_instance_requests_no_shutdown_witness :
  let s0 := chamber_built in
  fst (_sample_mlx90614 steady_host (float_of_Z 100) s0) = Ok NEVER
  /\ trace (snd (_sample_mlx90614 steady_host (float_of_Z 100) s0))
     = trace s0 ++ [I2CRead [0x07] 2; LogException "mlx90614: Error reading data" TypeError]
  /\ count is_shutdown (trace (snd (_sample_mlx90614 steady_host (float_of_Z 100) s0)))
     = count is_shutdown (trace s0).
Proof.
  intros s0.
  pose proof (fresh_instance_requests_no_shutdown chamber_config MLX90614_REGS [] s0
                steady_host (float_of_Z 100) 0x07 (response [x4b; x3a]) [x4b; x3a]
                eq_refl eq_refl eq_refl eq_refl) as H.
  exact (conj (proj1 (proj2 H))
           (conj (proj1 (proj2 (proj2 H))) (proj1 (proj2 (proj2 (proj2 H)))))).
Defined.

(** ** The conversion *)

Lemma all_from_spec (p : Z -> bool) (n : nat) (x : Z) :
  all_from n x p = true -> forall y, x <= y < x + Z.of_nat n -> p y = true.
Proof.
  revert x. induction n as [|n IH]; intros x H y Hy; [lia|].
  simpl in H. apply andb_true_iff in H. destruct H as [Hx Hrest].
  destruct (Z.eq_dec y x) as [->|Hne]; [exact Hx|].
  apply (IH (x + 1) Hrest). lia.
Qed.

Lemma raw_range_checked : all_from (Z.to_nat 65536) 0 sample_within_tolerance = true.
Proof. vm_compute. reflexivity. Qed.

(** C4. For a raw sample [x] in [0, 65535] the conversion succeeds with
    the binary64 value of [x * 0.02 - 273.15], which is finite and within
    1e-12 of the exact [x * 0.02 - 273.15]; on a float it never fails.
    It is a function of its argument alone: it neither reads nor writes
    the state. *)
Theorem degrees_from_raw_sample (x : Z) :
  0 <= x <= 65535 ->
  let t := fsub (fmul (float_of_Z x) lit_0_02) lit_273_15 in
  degrees_from_sample (PyInt x) = Ok t
  /\ is_finite t = true
  /\ (Qabs (Q_of_float t - exact_degrees x) <= tolerance)%Q
  /\ (forall f, degrees_from_sample (PyFloat f) = Ok (fsub (fmul f lit_0_02) lit_273_15))
  /\ forall s : state, lift (degrees_from_sample (PyInt x)) s = (Ok t, s).
Proof.
  intros Hx t.
  pose proof (all_from_spec _ _ _ raw_range_checked x ltac:(lia)) as H.
  unfold sample_within_tolerance in H. fold t in H.
  apply andb_true_iff in H. destruct H as [H Htol].
  apply andb_true_iff in H. destruct H as [H _].
  apply andb_true_iff in H. destruct H as [Ha Ht].
  assert (Hconv : degrees_from_sample (PyInt x) = Ok t).
  { unfold degrees_from_sample, py_mul_float, float_of_int. rewrite Ha. reflexivity. }
  split; [exact Hconv|]. split; [exact Ht|].
  split; [apply Qle_bool_iff, Htol|]. split; [reflexivity|].
  intros s. unfold lift. rewrite Hconv. reflexivity.
Qed.

Lemma degrees_from_raw_sample_witness :
  degrees_from_sample (PyInt 15000) = Ok (S754_finite false 7557603124681120 (-48)).
Proof.
  exact (proj1 (degrees_from_raw_sample 15000 ltac:(lia))).
Defined.

(** X12. No raw sample converts to 0.0, so with the bounds unset every raw
    sample, once converted, is out of range. *)
Corollary raw_sample_trips_unset_bounds (x : Z) (o : MLX90614) :
  0 <= x <= 65535 ->
  min_temp o = f0_0 -> max_temp o = f0_0 ->
  temp o = fsub (fmul (float_of_Z x) lit_0_02) lit_273_15 ->
  out_of_range o = true.
Proof.
  intros Hx Hmin Hmax Ht.
  pose proof (all_from_spec _ _ _ raw_range_checked x ltac:(lia)) as H.
  unfold sample_within_tolerance in H. rewrite <- Ht in H.
  apply andb_true_iff in H. destruct H as [H _].
  apply andb_true_iff in H. destruct H as [H Hnz].
  apply andb_true_iff in H. destruct H as [_ Hfin].
  unfold out_of_range. rewrite Hmin, Hmax.
  apply nonzero_outside_zero.
  - destruct (temp o); simpl in *; congruence.
  - destruct (feq (temp o) f0_0); simpl in *; congruence.
Qed.

(** * Further properties of the driver *)

(** ** Writing a register *)

(** X1. A write to a register of the table puts one transaction on the
    bus: the register address followed by the payload in its order. The
    caller's list has the address prepended in place, also when the bus
    write fails; a name outside the table raises KeyError with neither bus
    traffic nor change to the list. Used again, the same list carries the
    earlier address along: the second transaction is the new address, the
    old address, then the payload. A single integer is sent as a list of
    one item. *)
Theorem write_register_prepends_in_place
    (h : host) (reg_name reg_name' : string) (items : list pyval) (s : state) :
  (fst (write_register_list h reg_name items s) = write_register h reg_name (PyList items) s)
  /\ (forall n, write_register h reg_name (PyInt n) s
                = write_register h reg_name (PyList [PyInt n]) s)
  /\ match REGS s !! reg_name with
     | None =>
         write_register_list h reg_name items s = (Raise (KeyError reg_name), s, items)
     | Some reg =>
         write_register_list h reg_name items s
         = (i2c_write h (trace s) (PyInt reg :: items),
            with_trace s (trace s ++ [I2CWrite (PyInt reg :: items)]),
            PyInt reg :: items)
         /\ match REGS s !! reg_name' with
            | None => True
            | Some reg' =>
                let '(_, s1, items1) := write_register_list h reg_name items s in
                let '(_, s2, items2) := write_register_list h reg_name' items1 s1 in
                items2 = PyInt reg' :: PyInt reg :: items
                /\ trace s2 = trace s ++ [I2CWrite (PyInt reg :: items);
                                          I2CWrite (PyInt reg' :: PyInt reg :: items)]
            end
     end.
Proof.
  unfold write_register_list, write_register, lookup_reg, host_i2c_write, dict_getitem.
  unfold mbind, M_bind, emit, with_trace. simpl.
  destruct (REGS s !! reg_name) as [reg|]; simpl; [|repeat split; reflexivity].
  split; [reflexivity|]. split; [reflexivity|]. split; [reflexivity|].
  destruct (REGS s !! reg_name') as [reg'|]; simpl; [|exact I].
  rewrite <- app_assoc. split; reflexivity.
Qed.

(** ** Reading a register *)

(** X2. When the bus answers with bytes, [read_register] returns exactly
    those bytes as a bytearray after one transaction at the register's
    address; how many bytes came back is not compared with [read_len]. *)
Theorem read_register_returns_response
    (h : host) (reg_name : string) (read_len reg : Z) (params : gmap string pyval)
    (bs : list byte) (s : state) :
  REGS s !! reg_name = Some reg ->
  i2c_read h (trace s) [reg] read_len = Ok params ->
  params !! "response"%string = Some (PyBytes bs) ->
  read_register h reg_name read_len s
  = (Ok (PyByteArray bs), with_trace s (trace s ++ [I2CRead [reg] read_len])).
Proof.
  intros Hreg Hbus Hresp. rewrite read_register_cases, Hreg. simpl.
  rewrite Hbus, Hresp. reflexivity.
Qed.

Lemma read_register_returns_response_witness :
  read_register steady_host "MLX90614_TA" 5 (chamber f0_0 f0_0 f0_0)
  = (Ok (PyByteArray [x4b; x3a]), with_trace (chamber f0_0 f0_0 f0_0) [I2CRead [0x06] 5]).
Proof.
  exact (read_register_returns_response steady_host "MLX90614_TA" 5 0x06
           (response [x4b; x3a]) [x4b; x3a] (chamber f0_0 f0_0 f0_0) eq_refl eq_refl eq_refl).
Defined.

(** ** The identity probe *)

(** X3. With the table as defined, the probe makes one read of one byte at
    0x3C. If the bus answers with bytes, it logs the first byte in
    hexadecimal and ignores the rest; an empty answer logs nothing. In both
    cases it returns normally. *)
Theorem probe_logs_first_byte
    (h : host) (params : gmap string pyval) (bs : list byte) (s : state) :
  REGS s = MLX90614_REGS ->
  i2c_read h (trace s) [0x3C] 1 = Ok params ->
  params !! "response"%string = Some (PyBytes bs) ->
  _init_mlx90614 h s
  = (Ok tt,
     with_trace s
       (trace s ++ I2CRead [0x3C] 1 ::
          match bs with
          | [] => []
          | b :: _ => [LogInfo ("mlx90614: Chip ID " +:+ HexString.of_Z (int_of_byte b))]
          end)).
Proof.
  intros Hregs Hbus Hresp. unfold _init_mlx90614. run.
  assert (Hid : REGS s !! "MLX90614_ID1"%string = Some 0x3C) by (rewrite Hregs; reflexivity).
  rewrite read_register_cases, Hid. simpl.
  rewrite Hbus, Hresp. simpl.
  destruct bs as [|b bs']; simpl; [reflexivity|].
  rewrite <- app_assoc. reflexivity.
Qed.

Lemma probe_logs_first_byte_witness :
  _init_mlx90614 steady_host (chamber f0_0 f0_0 f0_0)
  = (Ok tt, with_trace (chamber f0_0 f0_0 f0_0)
              [I2CRead [0x3C] 1; LogInfo "mlx90614: Chip ID 0x4b"]).
Proof.
  exact (probe_logs_first_byte steady_host (response [x4b; x3a]) [x4b; x3a]
           (chamber f0_0 f0_0 f0_0) eq_refl eq_refl eq_refl).
Defined.

(** ** The out-of-range condition *)

Lemma flt_nan_l (a b : float) : is_nan a = true -> flt a b = false.
Proof. destruct a; try discriminate. reflexivity. Qed.

Lemma flt_nan_r (a b : float) : is_nan b = true -> flt a b = false.
Proof. destruct b; try discriminate. destruct a; reflexivity. Qed.

(** X4. The condition of line 82 takes the bounds as inclusive: it is
    false of a reading that compares at least [min_temp] and at most
    [max_temp], so also of a reading equal to a bound. *)
Theorem condition_false_within_bounds (o : MLX90614) :
  fle (min_temp o) (temp o) = true ->
  fle (temp o) (max_temp o) = true ->
  out_of_range o = false.
Proof.
  intros Hlo Hhi. unfold out_of_range.
  rewrite (fle_not_flt _ _ Hlo), (fle_not_flt _ _ Hhi). reflexivity.
Qed.

Lemma condition_false_within_bounds_witness :
  out_of_range {| name := "chamber"; report_time := lit_0_8; temp := float_of_Z 300;
                  min_temp := f0_0; max_temp := float_of_Z 300; _callback := None |} = false.
Proof.
  exact (condition_false_within_bounds
           {| name := "chamber"; report_time := lit_0_8; temp := float_of_Z 300;
              min_temp := f0_0; max_temp := float_of_Z 300; _callback := None |}
           eq_refl eq_refl).
Defined.

(** X5. A comparison with NaN is false, so the condition of line 82 is
    false of a NaN reading whatever the bounds, and with a NaN bound it
    is the comparison with the other bound alone. *)
Theorem condition_with_nan (o : MLX90614) :
  (is_nan (temp o) = true -> out_of_range o = false)
  /\ (is_nan (min_temp o) = true -> out_of_range o = flt (max_temp o) (temp o))
  /\ (is_nan (max_temp o) = true -> out_of_range o = flt (temp o) (min_temp o)).
Proof.
  unfold out_of_range. repeat split.
  - intros H. rewrite (flt_nan_l _ _ H), (flt_nan_r _ _ H). reflexivity.
  - intros H. rewrite (flt_nan_r _ _ H). reflexivity.
  - intros H. rewrite (flt_nan_l _ _ H). apply orb_false_r.
Qed.

(** ** Any sequence of calls *)

Lemma quiet_step_refl (s : state) : quiet_step s s.
Proof.
  repeat split; auto. exists []. rewrite app_nil_r. auto.
Qed.

Lemma quiet_step_trans (s1 s2 s3 : state) :
  quiet_step s1 s2 -> quiet_step s2 s3 -> quiet_step s1 s3.
Proof.
  intros (Hn & Hr & Hg & Ht & tr & Htr & Hc & Hs) (Hn' & Hr' & Hg' & Ht' & tr' & Htr' & Hc' & Hs').
  repeat split; try congruence.
  - destruct Ht' as [->| ->]; auto.
  - exists (tr ++ tr'). rewrite Htr', Htr, app_assoc, !count_app, Hc, Hc', Hs, Hs'. auto.
Qed.

Lemma quiet_with_trace (s : state) (tr : list event) :
  count is_callback tr = 0%nat -> count is_shutdown tr = 0%nat ->
  quiet_step s (with_trace s (trace s ++ tr)).
Proof. intros Hc Hs. repeat split; auto. exists tr. auto. Qed.

Lemma sample_effect (h : host) (eventtime : float) (s : state) :
  exists tr,
    (snd (_sample_mlx90614 h eventtime s) = with_trace s (trace s ++ tr)
     \/ (fst (_sample_mlx90614 h eventtime s) = Ok NEVER
         /\ snd (_sample_mlx90614 h eventtime s) = with_temp (with_trace s (trace s ++ tr)) f0_0))
    /\ count is_callback tr = 0%nat /\ count is_shutdown tr = 0%nat.
Proof.
  destruct (read_register_effect h "MLX90614_TOBJ1" 2 s) as (tr & Hs1 & Hsh & Hcb & Hba).
  rewrite sample_cases, sample_try_cases.
  destruct (read_register h "MLX90614_TOBJ1" 2 s) as [[sample|e] s1]; simpl in *.
  - destruct (Hba sample eq_refl) as [b ->]. simpl.
    exists (tr ++ [LogException "mlx90614: Error reading data" TypeError]).
    subst s1. rewrite !count_app, Hsh, Hcb. split; [|auto].
    right. split; [reflexivity|]. unfold halted, with_temp, with_trace. simpl.
    rewrite app_assoc. reflexivity.
  - destruct (isinstance_Exception e); simpl.
    + exists (tr ++ [LogException "mlx90614: Error reading data" e]).
      subst s1. rewrite !count_app, Hsh, Hcb. split; [|auto].
      right. split; [reflexivity|]. unfold halted, with_temp, with_trace. simpl.
      rewrite app_assoc. reflexivity.
    + exists tr. subst s1. auto.
Qed.

Lemma do_call_quiet (h : host) (c : call) (s : state) : quiet_step s (do_call h c s).
Proof.
  destruct c as [ |lo hi|cb| |t|r n|r d|t]; simpl.
  - destruct (init_effect h s) as (probe & Hinit & Hsh & Hcb).
    unfold handle_connect, mbind, M_bind. rewrite Hinit. run.
    repeat split; auto. exists (probe ++ [UpdateTimer NOW]).
    rewrite app_assoc, !count_app, Hsh, Hcb. auto.
  - repeat split; auto. exists []. simpl. rewrite app_nil_r. auto.
  - repeat split; auto. exists []. simpl. rewrite app_nil_r. auto.
  - apply quiet_step_refl.
  - destruct (sample_effect h t s) as (tr & [-> | [_ ->]] & Hc & Hs).
    + apply quiet_with_trace; assumption.
    + repeat split; auto. exists tr. auto.
  - destruct (read_register_effect h r n s) as (tr & -> & Hsh & Hcb & _).
    apply quiet_with_trace; assumption.
  - unfold write_register, lookup_reg, host_i2c_write, dict_getitem, mbind, M_bind, emit. simpl.
    destruct (REGS s !! r); simpl; [|apply quiet_step_refl].
    repeat split; auto. eexists. split; [reflexivity|]. auto.
  - apply quiet_step_refl.
Qed.

Lemma run_calls_quiet (h : host) (cs : list call) (s : state) : quiet_step s (run_calls h cs s).
Proof.
  revert s. induction cs as [|c cs IH]; intros s; simpl.
  - apply quiet_step_refl.
  - eapply quiet_step_trans; [apply do_call_quiet | apply IH].
Qed.

Lemma do_call_keeps_callback (h : host) (c : call) (s : state) :
  not_setup_callback c = true -> _callback (self (do_call h c s)) = _callback (self s).
Proof.
  destruct c as [ |lo hi|cb| |t|r n|r d|t]; simpl; try discriminate; intros _.
  - destruct (handle_connect_effect h s) as (probe & ->). reflexivity.
  - reflexivity.
  - reflexivity.
  - destruct (sample_effect h t s) as (tr & [-> | [_ ->]] & _); reflexivity.
  - destruct (read_register_effect h r n s) as (tr & -> & _). reflexivity.
  - unfold write_register, lookup_reg, host_i2c_write, dict_getitem, mbind, M_bind, emit. simpl.
    destruct (REGS s !! r); reflexivity.
  - reflexivity.
Qed.

(** X6. A new instance has no [_callback] attribute, and no method but
    [setup_callback] creates it: after any calls of the other methods it
    is still missing. [setup_callback] stores its argument, replacing an
    earlier one. *)
Theorem callback_unset_until_setup
    (cfg : config) (regs : gmap string Z) (tr : list event) (s0 : state)
    (h : host) (cs : list call) (cb cb' : string) :
  fst (__init__ cfg regs tr) = Ok s0 ->
  forallb not_setup_callback cs = true ->
  _callback (self (run_calls h cs s0)) = None
  /\ _callback (self (do_call h (Call_setup_callback cb) (run_calls h cs s0))) = Some cb
  /\ _callback (self (run_calls h [Call_setup_callback cb; Call_setup_callback cb']
                        (run_calls h cs s0))) = Some cb'.
Proof.
  intros Hinit Hcs.
  assert (H0 : _callback (self s0) = None).
  { revert Hinit. unfold __init__.
    destruct (py_last (py_split (get_name cfg))); [|discriminate].
    destruct (getfloat cfg _ _ _); [|discriminate].
    simpl. intros [= <-]. reflexivity. }
  split; [|split; reflexivity].
  clear Hinit. revert s0 H0. induction cs as [|c cs IH]; intros s0 H0; [exact H0|].
  simpl in Hcs. apply andb_true_iff in Hcs. destruct Hcs as [Hc Hcs].
  simpl. apply (IH Hcs). rewrite (do_call_keeps_callback h c s0 Hc). exact H0.
Qed.

Lemma callback_unset_until_setup_witness :
  _callback (self (run_calls steady_host
                     [Call_setup_minmax f0_0 (float_of_Z 300); Call_handle_connect;
                      Call_sample_mlx90614 f0_0] chamber_built)) = None.
Proof.
  exact (proj1 (callback_unset_until_setup chamber_config MLX90614_REGS [] chamber_built
                  steady_host
                  [Call_setup_minmax f0_0 (float_of_Z 300); Call_handle_connect;
                   Call_sample_mlx90614 f0_0] "a" "b" eq_refl eq_refl)).
Defined.

(** X7. Whatever methods are called, in whatever order and with whatever
    arguments, on whatever bus: the instance never calls the report
    callback and never requests a shutdown, and its name, its report
    interval (what [get_report_time_delta] answers) and the register table
    stay as they were. *)
Theorem no_call_sequence_ever_reports (h : host) (cs : list call) (s : state) :
  let s' := run_calls h cs s in
  name (self s') = name (self s)
  /\ report_time (self s') = report_time (self s)
  /\ fst (get_report_time_delta s') = Ok (report_time (self s))
  /\ REGS s' = REGS s
  /\ exists tr, trace s' = trace s ++ tr
                /\ count is_callback tr = 0%nat /\ count is_shutdown tr = 0%nat.
Proof.
  destruct (run_calls_quiet h cs s) as (Hn & Hr & Hg & _ & Htr).
  cbv zeta. split; [exact Hn|]. split; [exact Hr|].
  split; [unfold get_report_time_delta; run; rewrite Hr; reflexivity|].
  split; [exact Hg | exact Htr].
Qed.

(** X8. An instance whose reading is 0.0, as it is after construction,
    keeps it at 0.0 through any sequence of calls, so [get_status] answers
    a temperature of 0.0 at every point of its life. *)
Theorem reading_stays_zero (h : host) (cs : list call) (s : state) (eventtime : float) :
  temp (self s) = f0_0 ->
  temp (self (run_calls h cs s)) = f0_0
  /\ fst (get_status eventtime (run_calls h cs s))
     = Ok {[ "temperature"%string := PyFloat f0_0 ]}.
Proof.
  intros H0.
  destruct (run_calls_quiet h cs s) as (_ & _ & _ & Ht & _).
  assert (Hz : temp (self (run_calls h cs s)) = f0_0) by (destruct Ht; congruence).
  split; [exact Hz|]. unfold get_status. run. rewrite Hz. reflexivity.
Qed.

Lemma reading_stays_zero_witness :
  fst (get_status (float_of_Z 7)
         (run_calls steady_host
            [Call_setup_minmax f0_0 (float_of_Z 300); Call_setup_callback "temperature_callback";
             Call_handle_connect; Call_sample_mlx90614 f0_0; Call_sample_mlx90614 (float_of_Z 1)]
            (chamber f0_0 f0_0 f0_0)))
  = Ok {[ "temperature"%string := PyFloat f0_0 ]}.
Proof.
  exact (proj2 (reading_stays_zero steady_host _ (chamber f0_0 f0_0 f0_0) (float_of_Z 7) eq_refl)).
Defined.

(** X9. With the table as defined, an invocation of the sampling routine
    makes exactly one bus transaction, a read of two bytes at 0x07, and
    after it at most the one log line of the [except] clause. *)
Theorem sample_reads_object_register_once (h : host) (eventtime : float) (s : state) :
  REGS s = MLX90614_REGS ->
  exists rest,
    trace (snd (_sample_mlx90614 h eventtime s)) = trace s ++ I2CRead [0x07] 2 :: rest
    /\ (rest = [] \/ exists e, rest = [LogException "mlx90614: Error reading data" e]).
Proof.
  intros Hregs.
  assert (Hid : REGS s !! "MLX90614_TOBJ1"%string = Some 0x07) by (rewrite Hregs; reflexivity).
  rewrite sample_cases, sample_try_cases, read_register_cases, Hid. simpl.
  destruct (i2c_read h (trace s) [7] 2) as [params|e]; simpl.
  - destruct (params !! "response"%string) as [v|]; simpl.
    + destruct (bytearray v) as [w|e] eqn:Hb; simpl.
      * destruct (bytearray_is_bytearray _ _ Hb) as [b ->]. simpl.
        eexists. split; [rewrite <- app_assoc; reflexivity|]. eauto.
      * destruct (isinstance_Exception e); simpl.
        -- eexists. split; [rewrite <- app_assoc; reflexivity|]. eauto.
        -- eexists. split; [reflexivity|]. auto.
    + eexists. split; [rewrite <- app_assoc; reflexivity|]. eauto.
  - destruct (isinstance_Exception e); simpl.
    + eexists. split; [rewrite <- app_assoc; reflexivity|]. eauto.
    + eexists. split; [reflexivity|]. auto.
Qed.

Lemma sample_reads_object_register_once_witness :
  exists rest,
    trace (snd (_sample_mlx90614 dead_host f0_0 (chamber f0_0 f0_0 f0_0)))
    = [] ++ I2CRead [0x07] 2 :: rest
    /\ (rest = [] \/ exists e, rest = [LogException "mlx90614: Error reading data" e]).
Proof.
  exact (sample_reads_object_register_once dead_host f0_0 (chamber f0_0 f0_0 f0_0) eq_refl).
Defined.

(** ** The instance name *)

Lemma rev_app_rev_app (w cur acc : string) :
  String.rev_app (String.rev_app w cur) acc = String.rev_app cur (w +:+ acc).
Proof.
  revert cur. induction w as [|a w IH]; intros cur; simpl; [reflexivity|].
  rewrite IH. reflexivity.
Qed.

(** On a one-byte character the width is that of the one-byte white space. *)
Lemma space_width_ascii (c : ascii) (s : string) :
  (nat_of_ascii c <? 128)%nat = true ->
  space_width (String c s) = if is_ascii_space c then 1%nat else 0%nat.
Proof.
  intros Hc. apply Nat.ltb_lt in Hc. unfold space_width.
  destruct (is_ascii_space c); [reflexivity|].
  destruct s as [|c2 s2]; [reflexivity|].
  assert (H1 : (nat_of_ascii c =? 194)%nat = false) by (apply Nat.eqb_neq; lia).
  assert (H2 : (nat_of_ascii c =? 225)%nat = false) by (apply Nat.eqb_neq; lia).
  assert (H3 : (nat_of_ascii c =? 226)%nat = false) by (apply Nat.eqb_neq; lia).
  assert (H4 : (nat_of_ascii c =? 227)%nat = false) by (apply Nat.eqb_neq; lia).
  cbv zeta. rewrite H1, H2, H3, H4. simpl.
  destruct s2; reflexivity.
Qed.

Lemma split_cons (cur : string) (c : ascii) (s : string) :
  (nat_of_ascii c <? 128)%nat = true ->
  py_split_from O cur (String c s) =
  if is_ascii_space c
  then match cur with
       | EmptyString => py_split_from O EmptyString s
       | _ => String.rev cur :: py_split_from O EmptyString s
       end
  else py_split_from O (String c cur) s.
Proof.
  intros Hc. change (py_split_from O cur (String c s)) with
    (match space_width (String c s) with
     | O => py_split_from O (String c cur) s
     | S k => match cur with
              | EmptyString => py_split_from k EmptyString s
              | _ => String.rev cur :: py_split_from k EmptyString s
              end
     end).
  rewrite (space_width_ascii c s Hc). destruct (is_ascii_space c); reflexivity.
Qed.

Lemma split_word (w cur : string) :
  ascii_text w = true ->
  no_space w = true ->
  py_split_from O cur w =
  match String.rev_app w cur with
  | EmptyString => []
  | r => [String.rev r]
  end.
Proof.
  revert cur. induction w as [|a w IH]; intros cur Hasc Hw.
  - destruct cur; reflexivity.
  - simpl in Hasc, Hw. apply andb_true_iff in Hasc. destruct Hasc as [Ha Hasc].
    apply andb_true_iff in Hw. destruct Hw as [Hb Hw].
    apply negb_true_iff in Hb. rewrite (split_cons cur a w Ha), Hb.
    rewrite (IH (String a cur) Hasc Hw). reflexivity.
Qed.

Lemma split_one_word (w : string) :
  ascii_text w = true -> no_space w = true -> w <> EmptyString ->
  py_split_from O EmptyString w = [w].
Proof.
  intros Hasc Hw Hne. rewrite (split_word w "" Hasc Hw).
  destruct (String.rev_app w "") as [|a r] eqn:Hr.
  - exfalso. apply Hne.
    pose proof (rev_app_rev_app w "" "") as H. rewrite Hr in H. simpl in H.
    rewrite append_nil_r in H. congruence.
  - rewrite <- Hr. unfold String.rev. rewrite rev_app_rev_app. simpl.
    rewrite append_nil_r. reflexivity.
Qed.

Lemma split_blank (s : string) :
  all_space s = true -> py_split_from O EmptyString s = [].
Proof.
  induction s as [|a s IH]; [reflexivity|].
  simpl all_space. intros H. apply andb_true_iff in H. destruct H as [Ha Hs].
  change (py_split_from O EmptyString (String a s)) with
    (match space_width (String a s) with
     | O => py_split_from O (String a EmptyString) s
     | S k => py_split_from k EmptyString s
     end).
  unfold space_width. rewrite Ha. apply IH, Hs.
Qed.

Lemma split_last_after_blank (w pre : string) :
  ascii_text w = true -> no_space w = true -> w <> EmptyString ->
  forall cur, pre <> EmptyString -> ascii_text pre = true -> ends_blank pre = true ->
  last (py_split_from O cur (pre +:+ w)) = Some w.
Proof.
  intros Hasc Hw Hne. induction pre as [|a p IH]; intros cur Hpre Hap Hend; [congruence|].
  simpl in Hap. apply andb_true_iff in Hap. destruct Hap as [Ha Hap].
  destruct p as [|b p'].
  - simpl in Hend. change (String a "" +:+ w) with (String a w).
    rewrite (split_cons cur a w Ha), Hend, (split_one_word w Hasc Hw Hne).
    destruct cur; reflexivity.
  - assert (Hend' : ends_blank (String b p') = true) by exact Hend.
    assert (Hp : String b p' <> EmptyString) by discriminate.
    change (String a (String b p') +:+ w) with (String a (String b p' +:+ w)).
    rewrite (split_cons cur a _ Ha). destruct (is_ascii_space a).
    + destruct cur as [|c cur'].
      * apply IH; assumption.
      * rewrite last_cons, (IH EmptyString Hp Hap Hend'). reflexivity.
    + apply IH; assumption.
Qed.

(** White space of several bytes cuts a name too: with a no-break space
    (U+00A0, the bytes 0xC2 0xA0) between them, 'a' and 'b' are two words,
    and a name that is a no-break space alone has no word at all. *)
Example split_at_no_break_space :
  py_split (String "a" (String (ascii_of_nat 194) (String (ascii_of_nat 160) "b")))
  = ["a"%string; "b"%string]
  /\ py_last (py_split (String (ascii_of_nat 194) (String (ascii_of_nat 160) "")))
     = Raise IndexError.
Proof. split; reflexivity. Qed.

(** X10. When the section name is a text of one-byte characters made of a
    word without blanks, alone or after a prefix that ends in a blank, that
    word is the instance name: a construction that succeeds stores it in
    [name] and registers the object as "MLX90614 " followed by it. *)
Theorem instance_name_is_last_word
    (cfg : config) (regs : gmap string Z) (tr : list event) (pre w : string) (s0 : state) :
  get_name cfg = pre +:+ w ->
  ascii_text pre = true ->
  ascii_text w = true ->
  ends_blank pre = true ->
  no_space w = true ->
  w <> EmptyString ->
  fst (__init__ cfg regs tr) = Ok s0 ->
  name (self s0) = w
  /\ In (AddObject ("MLX90614 " +:+ w)) (trace s0).
Proof.
  intros Hname Hap Hasc Hend Hw Hne.
  assert (Hlast : py_last (py_split (get_name cfg)) = Ok w).
  { unfold py_last, py_split. rewrite Hname.
    destruct pre as [|a p].
    - change ("" +:+ w) with w. rewrite (split_one_word w Hasc Hw Hne). reflexivity.
    - rewrite (split_last_after_blank w (String a p) Hasc Hw Hne);
        [reflexivity|discriminate|exact Hap|exact Hend]. }
  rewrite (init_cases cfg regs tr w Hlast). cbv zeta.
  destruct (getfloat cfg _ _ _); [|discriminate].
  simpl. intros [= <-]. simpl. split; [reflexivity|].
  rewrite !in_app_iff. simpl. auto.
Qed.

Lemma instance_name_is_last_word_witness :
  exists s0,
    fst (__init__ chamber_config MLX90614_REGS []) = Ok s0
    /\ name (self s0) = "chamber"%string
    /\ In (AddObject "MLX90614 chamber") (trace s0).
Proof.
  eexists. split; [reflexivity|].
  refine (instance_name_is_last_word chamber_config MLX90614_REGS [] "temperature_sensor "
            "chamber" _ eq_refl eq_refl eq_refl eq_refl eq_refl _ eq_refl).
  discriminate.
Defined.

(** X11. A section name that is empty or all blanks makes the constructor
    raise IndexError at once: nothing has been asked of the host, and no
    timer, object or handler is registered. *)
Theorem blank_name_fails_construction
    (cfg : config) (regs : gmap string Z) (tr : list event) :
  all_space (get_name cfg) = true ->
  __init__ cfg regs tr = (Raise IndexError, tr).
Proof.
  intros H. unfold __init__, py_split. rewrite (split_blank _ H). reflexivity.
Qed.

Lemma blank_name_fails_construction_witness :
  __init__ {| get_name := "  "; options := ∅ |} MLX90614_REGS [] = (Raise IndexError, []).
Proof.
  exact (blank_name_fails_construction {| get_name := "  "; options := ∅ |} MLX90614_REGS [] eq_refl).
Defined.

Lemma raw_sample_trips_unset_bounds_witness :
  out_of_range {| name := "chamber"; report_time := lit_0_8;
                  temp := fsub (fmul (float_of_Z 13657) lit_0_02) lit_273_15;
                  min_temp := f0_0; max_temp := f0_0; _callback := None |} = true.
Proof.
  exact (raw_sample_trips_unset_bounds 13657
           {| name := "chamber"; report_time := lit_0_8;
              temp := fsub (fmul (float_of_Z 13657) lit_0_02) lit_273_15;
              min_temp := f0_0; max_temp := f0_0; _callback := None |}
           ltac:(lia) eq_refl eq_refl eq_refl).
Defined.

(** ** The range of the conversion *)

(** X13. Every raw sample converts to a finite temperature between
    -273.16 and 1037.56 degrees: the sensor's whole 16-bit range stays
    within these two values. *)
Theorem raw_sample_degrees_range (x : Z) (t : float) :
  0 <= x <= 65535 ->
  degrees_from_sample (PyInt x) = Ok t ->
  is_finite t = true
  /\ (- (27316 # 100) <= Q_of_float t)%Q
  /\ (Q_of_float t <= 103756 # 100)%Q.
Proof.
  intros Hx Hconv.
  pose proof (all_from_spec _ _ _ raw_range_checked x ltac:(lia)) as H.
  unfold sample_within_tolerance in H.
  apply andb_true_iff in H. destruct H as [H Htol].
  apply andb_true_iff in H. destruct H as [H _].
  apply andb_true_iff in H. destruct H as [Ha Ht].
  unfold degrees_from_sample, py_mul_float, float_of_int in Hconv. rewrite Ha in Hconv.
  injection Hconv as <-.
  split; [exact Ht|].
  apply Qle_bool_iff, Qabs_Qle_condition in Htol. destruct Htol as [Hl Hu].
  unfold exact_degrees, tolerance in *.
  assert (H0 : (0 <= x # 1)%Q) by (unfold Qle; simpl; lia).
  assert (H1 : (x # 1 <= 65535 # 1)%Q) by (unfold Qle; simpl; lia).
  split; lra.
Qed.

Lemma raw_sample_degrees_range_witness :
  is_finite (S754_finite false 7557603124681120 (-48)) = true
  /\ (- (27316 # 100) <= Q_of_float (S754_finite false 7557603124681120 (-48)))%Q
  /\ (Q_of_float (S754_finite false 7557603124681120 (-48)) <= 103756 # 100)%Q.
Proof.
  exact (raw_sample_degrees_range 15000 _ ltac:(lia) eq_refl).
Defined.
